(** * MiningService: the Stratum session handler of [mining/service.py]

    A shallow embedding of the RPC handlers of [MiningService]
    ([update_block], [add_litecoind], [authorize], [subscribe], [submit])
    and the properties of the session state machine and of the share
    submission pipeline.

    The handlers run against one connection's session dictionary and a
    registry of collaborators ([Interfaces]).  Every collaborator call is
    written to a call log, in program order, so that statements about
    "what was called, with which arguments, before what" are statements
    about a list. *)

From Stdlib Require Import ZArith NArith String Ascii List Bool Lia.
From stdpp Require Import base option strings gmap.
Import ListNotations.

Local Open Scope string_scope.
Local Open Scope list_scope.

(* ===================================================================== *)
(** ** Python values                                                      *)
(* ===================================================================== *)

Module Py.

(** The values that flow through the handlers.  Python 2 [str] is a byte
    string, which is what [string] (a list of 8-bit characters) is.
    Numbers (difficulties, timestamps) are never computed with by the
    handlers, only stored, compared with [==] and passed on; they are
    integers here.  [PyRef] is an object known by identity only (a
    twisted [Deferred]). *)
Inductive PyVal : Type :=
| PyNone
| PyBool (b : bool)
| PyInt (n : Z)
| PyStr (s : string)
| PyRef (id : nat).

(** Truth value testing: what [if v] and [not v] look at. *)
Definition truthy (v : PyVal) : bool :=
  match v with
  | PyNone => false
  | PyBool b => b
  | PyInt n => negb (n =? 0)%Z
  | PyStr s => negb (String.eqb s "")
  | PyRef _ => true
  end.

Definition Z_of_bool (b : bool) : Z := if b then 1%Z else 0%Z.

(** [a == b].  [bool] is a subclass of [int]: [False == 0], [True == 1]. *)
Definition py_eq (a b : PyVal) : bool :=
  match a, b with
  | PyNone, PyNone => true
  | PyBool x, PyBool y => Bool.eqb x y
  | PyBool x, PyInt n => (Z_of_bool x =? n)%Z
  | PyInt n, PyBool y => (n =? Z_of_bool y)%Z
  | PyInt n, PyInt m => (n =? m)%Z
  | PyStr s, PyStr t => String.eqb s t
  | PyRef i, PyRef j => Nat.eqb i j
  | _, _ => false
  end.

(** [a != b]. *)
Definition py_ne (a b : PyVal) : bool := negb (py_eq a b).

(** [binascii.hexlify]: two lowercase hexadecimal digits per byte. *)
Definition hex_digit (n : N) : ascii :=
  match n with
  | 0 => "0" | 1 => "1" | 2 => "2" | 3 => "3"
  | 4 => "4" | 5 => "5" | 6 => "6" | 7 => "7"
  | 8 => "8" | 9 => "9" | 10 => "a" | 11 => "b"
  | 12 => "c" | 13 => "d" | 14 => "e" | _ => "f"
  end%N%char.

Fixpoint hexlify (data : string) : string :=
  match data with
  | EmptyString => EmptyString
  | String c rest =>
      let n := N_of_ascii c in
      String (hex_digit (n / 16)) (String (hex_digit (n mod 16)) (hexlify rest))
  end.

End Py.
Import Py.

(* ===================================================================== *)
(** ** Exceptions and outcomes                                            *)
(* ===================================================================== *)

(** [SubmitException] is [lib.exceptions.SubmitException]; every [raise] of
    it in the module gives it one argument, the message, which is what
    [e[0]] reads back.  The others are the interpreter's own. *)
Inductive exn : Type :=
| SubmitException (msg : string)
| KeyError (key : string)
| NameError (name : string)
| SyntaxError
| OtherError (what : string).

Inductive outcome (A : Type) : Type :=
| Return (a : A)
| Raise (e : exn).
Arguments Return {A} a.
Arguments Raise {A} e.

(* ===================================================================== *)
(** ** The session and the collaborators                                  *)
(* ===================================================================== *)

(** The session dictionary of a connection, restricted to the three keys
    the service touches.  [None] is "the key is not in the dict". *)
Record Session : Type := mkSession {
  authorized : option (gmap string PyVal);
  extranonce1 : option PyVal;
  difficulty : option PyVal
}.

Definition empty_session : Session :=
  {| authorized := None; extranonce1 := None; difficulty := None |}.

(** The five values [template_registry.submit_share] returns. *)
Record ShareResult : Type := mkShareResult {
  block_header : PyVal;
  block_hash : PyVal;
  share_diff : PyVal;
  on_submit : PyVal;
  shareAtOldDiff : PyVal
}.

(** One entry of the call log per collaborator call, with its arguments. *)
Inductive Call : Type :=
| UpdateBlock
| AddConnection (host port user password : PyVal)
| Authorize (worker_name : string) (worker_password : PyVal)
| GetNewExtranonce1
| PubsubSubscribe
| TimestamperTime
| GetIp
| ShareLimiterSubmit (job_id difficulty submit_time : PyVal) (worker_name : string)
| SubmitShare (job_id : PyVal) (worker_name : string) (session : Session)
    (extranonce1_bin extranonce2 ntime nonce difficulty : PyVal)
| OnSubmitShare (worker_name : string)
    (block_header block_hash difficulty submit_time is_valid ip invalid_reason
       share_diff : PyVal)
| AddCallback (on_submit : PyVal) (worker_name : string)
    (block_header block_hash submit_time ip share_diff : PyVal).

(** An element of the tuple [subscribe] returns: a plain value, or a tuple
    of values (the [(event, key)] pairs [Pubsub.subscribe] answers with). *)
Inductive Item : Type :=
| Plain (v : PyVal)
| Tuple (items : list PyVal).

(** The collaborator registry ([Interfaces], [settings], [Pubsub], the
    connection).  Each field is the answer the collaborator gives.
    - [get_new_extranonce1 n] is the value of the allocator's [n]-th
      allocation (counting from 0);
    - [pubsub_subscribe history] is what [Pubsub.subscribe] does when the
      connection has made the collaborator calls [history] so far: it
      returns the tuple of subscription details, or raises (a connection
      that is already subscribed to the event is refused);
    - [share_limiter_submit] answers with the difficulty it writes into the
      session when it retargets, [None] when it leaves the session alone;
    - [submit_share] either returns its five values or raises. *)
Record Interfaces : Type := mkInterfaces {
  worker_manager_authorize : string -> PyVal -> bool;
  get_new_extranonce1 : nat -> string;
  extranonce2_size : PyVal;
  POOL_TARGET : PyVal;
  pubsub_subscribe : list Call -> outcome (list Item);
  timestamper_time : PyVal;
  connection_ip : PyVal;
  share_limiter_submit : PyVal -> PyVal -> PyVal -> string -> option PyVal;
  submit_share :
    PyVal -> string -> Session -> PyVal -> PyVal -> PyVal -> PyVal -> PyVal ->
    outcome ShareResult
}.

(** What a handler runs in: the connection's session, the number of
    extranonce1 values the allocator has handed out, and the call log
    (oldest call first). *)
Record World : Type := mkWorld {
  session : Session;
  allocated : nat;
  calls : list Call
}.

Definition initial_world : World :=
  {| session := empty_session; allocated := 0; calls := [] |}.

(* ===================================================================== *)
(** ** A state and exception monad                                        *)
(* ===================================================================== *)

(** Mutations made before a [raise] stay made, so the world is returned on
    both outcomes. *)
Definition M (A : Type) : Type := World -> outcome A * World.

Definition ret {A} (a : A) : M A := fun w => (Return a, w).

Definition raise {A} (e : exn) : M A := fun w => (Raise e, w).

Definition bind {A B} (m : M A) (k : A -> M B) : M B :=
  fun w =>
    match m w with
    | (Return a, w') => k a w'
    | (Raise e, w') => (Raise e, w')
    end.

Declare Scope py_scope.
Delimit Scope py_scope with py.
Notation "x <- m ;; k" := (bind m (fun x => k))
  (at level 100, m at next level, right associativity) : py_scope.
Notation "m ;; k" := (bind m (fun _ => k))
  (at level 100, right associativity) : py_scope.
Local Open Scope py_scope.

Definition get_session : M Session := fun w => (Return (session w), w).

Definition put_session (s : Session) : M unit :=
  fun w => (Return tt, {| session := s; allocated := allocated w; calls := calls w |}).

Definition log_call (c : Call) : M unit :=
  fun w =>
    (Return tt, {| session := session w; allocated := allocated w; calls := calls w ++ [c] |}).

(** [try: m  except SubmitException as e: h e]: only [SubmitException] is
    caught. *)
Definition try_except_SubmitException {A} (m : M A) (h : string -> M A) : M A :=
  fun w =>
    match m w with
    | (Raise (SubmitException msg), w') => h msg w'
    | r => r
    end.

(* ===================================================================== *)
(** ** Session dictionary accesses                                        *)
(* ===================================================================== *)

(** [session.setdefault('authorized', {})] *)
Definition setdefault_authorized : M unit :=
  s <- get_session ;;
  match authorized s with
  | Some _ => ret tt
  | None =>
      put_session {| authorized := Some ∅; extranonce1 := extranonce1 s;
                     difficulty := difficulty s |}
  end.

(** [session['authorized']] *)
Definition session_authorized : M (gmap string PyVal) :=
  s <- get_session ;;
  match authorized s with
  | Some m => ret m
  | None => raise (KeyError "authorized")
  end.

Definition set_session_authorized (m : gmap string PyVal) : M unit :=
  s <- get_session ;;
  put_session {| authorized := Some m; extranonce1 := extranonce1 s;
                 difficulty := difficulty s |}.

(** [session['extranonce1'] = v] *)
Definition set_session_extranonce1 (v : PyVal) : M unit :=
  s <- get_session ;;
  put_session {| authorized := authorized s; extranonce1 := Some v;
                 difficulty := difficulty s |}.

(** [session['difficulty'] = v] *)
Definition set_session_difficulty (v : PyVal) : M unit :=
  s <- get_session ;;
  put_session {| authorized := authorized s; extranonce1 := extranonce1 s;
                 difficulty := Some v |}.

(** [session['difficulty']] *)
Definition session_difficulty : M PyVal :=
  s <- get_session ;;
  match difficulty s with
  | Some d => ret d
  | None => raise (KeyError "difficulty")
  end.

(** [d.get(k)]: [None] when the key is missing. *)
Definition dict_get (m : gmap string PyVal) (k : string) : PyVal :=
  default PyNone (m !! k).

(** [session.get('extranonce1', None)] *)
Definition session_get_extranonce1 : M PyVal :=
  s <- get_session ;;
  ret (default PyNone (extranonce1 s)).

(* ===================================================================== *)
(** ** Collaborator calls                                                 *)
(* ===================================================================== *)

Section Collaborators.
Variable I : Interfaces.

Definition call_update_block : M unit := log_call UpdateBlock.

Definition call_add_connection (host port user password : PyVal) : M unit :=
  log_call (AddConnection host port user password).

Definition call_authorize (worker_name : string) (worker_password : PyVal) : M bool :=
  log_call (Authorize worker_name worker_password) ;;
  ret (worker_manager_authorize I worker_name worker_password).

Definition call_get_new_extranonce1 : M string :=
  fun w =>
    (Return (get_new_extranonce1 I (allocated w)),
     {| session := session w; allocated := S (allocated w);
        calls := calls w ++ [GetNewExtranonce1] |}).

Definition call_pubsub_subscribe : M (list Item) :=
  fun w =>
    (pubsub_subscribe I (calls w),
     {| session := session w; allocated := allocated w;
        calls := calls w ++ [PubsubSubscribe] |}).

Definition call_time : M PyVal :=
  log_call TimestamperTime ;;
  ret (timestamper_time I).

Definition call_get_ip : M PyVal :=
  log_call GetIp ;;
  ret (connection_ip I).

Definition call_share_limiter_submit
    (job_id difficulty submit_time : PyVal) (worker_name : string) : M unit :=
  log_call (ShareLimiterSubmit job_id difficulty submit_time worker_name) ;;
  match share_limiter_submit I job_id difficulty submit_time worker_name with
  | Some d => set_session_difficulty d
  | None => ret tt
  end.

Definition call_submit_share
    (job_id : PyVal) (worker_name : string)
    (extranonce1_bin extranonce2 ntime nonce difficulty : PyVal) : M ShareResult :=
  s <- get_session ;;
  log_call (SubmitShare job_id worker_name s extranonce1_bin extranonce2 ntime nonce
              difficulty) ;;
  fun w =>
    (submit_share I job_id worker_name s extranonce1_bin extranonce2 ntime nonce
       difficulty, w).

Definition call_on_submit_share (worker_name : string)
    (block_header block_hash difficulty submit_time is_valid ip invalid_reason
       share_diff : PyVal) : M unit :=
  log_call (OnSubmitShare worker_name block_header block_hash difficulty submit_time
              is_valid ip invalid_reason share_diff).

Definition call_add_callback (on_submit : PyVal) (worker_name : string)
    (block_header block_hash submit_time ip share_diff : PyVal) : M unit :=
  log_call (AddCallback on_submit worker_name block_header block_hash submit_time ip
              share_diff).

End Collaborators.

(* ===================================================================== *)
(** ** The header of the [if] on line 109                                 *)
(* ===================================================================== *)

(** After the validator has returned, [submit] chooses the difficulty the
    share is credited at with an [if] whose header the source writes as
    [shareAtOldDiff = false].  Between two names Python has the comparison
    [a == b], an expression, and the assignment [a = b], a statement; an
    [if] header is an expression.  The header is kept as data, so that the
    line can be read exactly as it is written and also as the comparison
    its comment describes.

    The handlers are modelled statement by statement, and a path through
    [submit] is judged on the statements it runs: the [SyntaxError] of the
    header as written is raised when control reaches line 109, so the paths
    that leave [submit] before it (lines 82, 88 and 105) and the other
    handlers are what their own statements make them.  (The interpreter
    reports the error earlier still, when it compiles the module.) *)
Inductive if_header : Type :=
| Comparison (lhs rhs : string)
| Assignment (target value : string).

(** Line 109 as the source has it. *)
Definition line_109 : if_header := Assignment "shareAtOldDiff" "false".

(** The comparison the comments around line 109 describe
    ("shareAtOldDiff still at false : cool, nothing unusual"). *)
Definition line_109_comparison : if_header := Comparison "shareAtOldDiff" "False".

(** Name resolution: the function's locals first, then the builtins. *)
Definition builtins : list (string * PyVal) :=
  [("True", PyBool true); ("False", PyBool false); ("None", PyNone)].

Fixpoint assoc (x : string) (bindings : list (string * PyVal)) : option PyVal :=
  match bindings with
  | [] => None
  | (y, v) :: rest => if String.eqb x y then Some v else assoc x rest
  end.

Definition lookup_name (locals : list (string * PyVal)) (x : string) : option PyVal :=
  match assoc x locals with
  | Some v => Some v
  | None => assoc x builtins
  end.

(** The truth value of an [if] header: an assignment is not an expression;
    a comparison looks up both names and compares with [==]. *)
Definition header_test (locals : list (string * PyVal)) (h : if_header) : outcome bool :=
  match h with
  | Assignment _ _ => Raise SyntaxError
  | Comparison a b =>
      match lookup_name locals a with
      | None => Raise (NameError a)
      | Some x =>
          match lookup_name locals b with
          | None => Raise (NameError b)
          | Some y => Return (py_eq x y)
          end
      end
  end.

Definition eval_if_header (locals : list (string * PyVal)) (h : if_header) : M bool :=
  fun w => (header_test locals h, w).

(* ===================================================================== *)
(** ** The handlers of [MiningService]                                    *)
(* ===================================================================== *)

Section Handlers.
Variable I : Interfaces.

(** [args[i]] for a tuple of [PyVal]; only used below the arity check. *)
Definition arg (args : list PyVal) (i : nat) : PyVal := nth i args PyNone.

Definition update_block : M bool :=
  call_update_block ;;
  ret true.

Definition add_litecoind (args : list PyVal) : M bool :=
  if negb (length args =? 4)%nat then
    raise (SubmitException "Incorrect number of parameters sent")
  else
    call_add_connection (arg args 0) (arg args 1) (arg args 2) (arg args 3) ;;
    ret true.

Definition authorize (worker_name : string) (worker_password : PyVal) : M bool :=
  setdefault_authorized ;;
  ok <- call_authorize I worker_name worker_password ;;
  if ok then
    m <- session_authorized ;;
    set_session_authorized (<[worker_name := worker_password]> m) ;;
    ret true
  else
    m <- session_authorized ;;
    (if decide (is_Some (m !! worker_name))
     then set_session_authorized (delete worker_name m)
     else ret tt) ;;
    ret false.

Definition subscribe (args : list PyVal) : M (list Item) :=
  extranonce1 <- call_get_new_extranonce1 I ;;
  let extranonce2_size := extranonce2_size I in
  let extranonce1_hex := hexlify extranonce1 in
  set_session_extranonce1 (PyStr extranonce1) ;;
  set_session_difficulty (POOL_TARGET I) ;;
  details <- call_pubsub_subscribe I ;;
  ret (details ++ [Plain (PyStr extranonce1_hex); Plain extranonce2_size]).

(** The [PyVal]-valued local names of [submit] that are bound when
    control is at line 109. *)
Definition locals_at_line_109 (worker_name : string)
    (job_id extranonce2 ntime nonce extranonce1_bin difficulty submit_time ip : PyVal)
    (r : ShareResult) : list (string * PyVal) :=
  [("worker_name", PyStr worker_name); ("job_id", job_id);
   ("extranonce2", extranonce2); ("ntime", ntime); ("nonce", nonce);
   ("extranonce1_bin", extranonce1_bin); ("difficulty", difficulty);
   ("submit_time", submit_time); ("ip", ip);
   ("block_header", block_header r); ("block_hash", block_hash r);
   ("share_diff", share_diff r); ("on_submit", on_submit r);
   ("shareAtOldDiff", shareAtOldDiff r)].

(** [submit], with the header of the [if] on line 109 as a parameter. *)
Definition submit_with (header : if_header) (worker_name : string)
    (job_id extranonce2 ntime nonce : PyVal) : M bool :=
  setdefault_authorized ;;
  m <- session_authorized ;;
  ok <- call_authorize I worker_name (dict_get m worker_name) ;;
  if negb ok then raise (SubmitException "Worker is not authorized") else
  extranonce1_bin <- session_get_extranonce1 ;;
  if negb (truthy extranonce1_bin) then
    raise (SubmitException "Connection is not subscribed for mining")
  else
  difficulty <- session_difficulty ;;
  submit_time <- call_time I ;;
  ip <- call_get_ip I ;;
  call_share_limiter_submit I job_id difficulty submit_time worker_name ;;
  r <- try_except_SubmitException
         (call_submit_share I job_id worker_name extranonce1_bin extranonce2 ntime
            nonce difficulty)
         (fun msg =>
            call_on_submit_share worker_name (PyBool false) (PyBool false) difficulty
              submit_time (PyBool false) ip (PyStr msg) (PyInt 0) ;;
            raise (SubmitException msg)) ;;
  test <- eval_if_header
            (locals_at_line_109 worker_name job_id extranonce2 ntime nonce
               extranonce1_bin difficulty submit_time ip r) header ;;
  (if test then
     call_on_submit_share worker_name (block_header r) (block_hash r) difficulty
       submit_time (PyBool true) ip (PyStr "") (share_diff r)
   else
     call_on_submit_share worker_name (block_header r) (block_hash r)
       (shareAtOldDiff r) submit_time (PyBool true) ip (PyStr "") (share_diff r)) ;;
  (if py_ne (on_submit r) PyNone then
     call_add_callback (on_submit r) worker_name (block_header r) (block_hash r)
       submit_time ip (share_diff r)
   else ret tt) ;;
  ret true.

(** [submit] as the source has it. *)
Definition submit : string -> PyVal -> PyVal -> PyVal -> PyVal -> M bool :=
  submit_with line_109.

End Handlers.

(** Reading the call log. *)
Definition is_OnSubmitShare (c : Call) : bool :=
  match c with OnSubmitShare _ _ _ _ _ _ _ _ _ => true | _ => false end.

Definition is_AddCallback (c : Call) : bool :=
  match c with AddCallback _ _ _ _ _ _ _ => true | _ => false end.

Definition is_AddConnection (c : Call) : bool :=
  match c with AddConnection _ _ _ _ => true | _ => false end.

(** The world with one more call in its log. *)
Definition logged (c : Call) (w : World) : World :=
  {| session := session w; allocated := allocated w; calls := calls w ++ [c] |}.

(** The world with its session replaced. *)
Definition with_session (s : Session) (w : World) : World :=
  {| session := s; allocated := allocated w; calls := calls w |}.

(* ===================================================================== *)
(** ** A concrete pool                                                    *)
(* ===================================================================== *)

(** The pool of the running example: default difficulty 16, extranonce2 of
    4 bytes, one known worker, an allocator that starts at [aa11bb22], and
    a validator that knows three jobs. *)
Module Example.

Definition alice : string := "alice.rig1".
Definition bob : string := "bob.rig7".

Definition byte (n : nat) : ascii := ascii_of_nat n.

(** [aa 11 bb 22], then [aa 11 bb 23], ... *)
Definition allocator (n : nat) : string :=
  String (byte 170) (String (byte 17) (String (byte 187)
    (String (byte (34 + n)) EmptyString))).

(** Accepts [alice] with her password and nothing else. *)
Definition password_db (worker_name : string) (worker_password : PyVal) : bool :=
  String.eqb worker_name alice && py_eq worker_password (PyStr "hunter2").

(** Accepts every pair, as a pool without worker accounts does. *)
Definition accept_everyone (worker_name : string) (worker_password : PyVal) : bool :=
  true.

(** [job_old] was issued at difficulty 8, before the retarget to 16:
    the share reaches 8 and is signalled as a share at the old difficulty.
    [job_new] yields a plain share, [job_block] a block solution with a
    pending [Deferred]; any other job is unknown. *)
Definition validator (job_id : PyVal) (worker_name : string) (s : Session)
    (extranonce1_bin extranonce2 ntime nonce difficulty : PyVal) : outcome ShareResult :=
  match job_id with
  | PyStr "job_old" =>
      Return (mkShareResult (PyBool false) (PyBool false) (PyInt 8) PyNone (PyInt 8))
  | PyStr "job_new" =>
      Return (mkShareResult (PyBool false) (PyBool false) (PyInt 16) PyNone (PyBool false))
  | PyStr "job_block" =>
      Return (mkShareResult (PyStr "header") (PyStr "hash") (PyInt 4096) (PyRef 1)
                (PyBool false))
  | _ => Raise (SubmitException "Job not found")
  end.

(** [Pubsub.subscribe] as stratum has it: the first subscription of the
    connection to [mining.notify] is answered with the event and its key,
    a later one is refused. *)
Definition stratum_pubsub (history : list Call) : outcome (list Item) :=
  if existsb (fun c => match c with PubsubSubscribe => true | _ => false end) history
  then Raise (OtherError "AlreadySubscribedException")
  else Return [Tuple [PyStr "mining.notify"; PyStr "ae6812eb4cd7735a"]].

Definition pool (auth : string -> PyVal -> bool) : Interfaces :=
  {| worker_manager_authorize := auth;
     get_new_extranonce1 := allocator;
     extranonce2_size := PyInt 4;
     POOL_TARGET := PyInt 16;
     pubsub_subscribe := stratum_pubsub;
     timestamper_time := PyInt 1400000000;
     connection_ip := PyStr "10.0.0.7";
     share_limiter_submit := fun _ _ _ _ => None;
     submit_share := validator |}.

(** The same pool with a share limiter that retargets the session to 32
    on every submission. *)
Definition retargeting_pool (auth : string -> PyVal -> bool) : Interfaces :=
  {| worker_manager_authorize := auth;
     get_new_extranonce1 := allocator;
     extranonce2_size := PyInt 4;
     POOL_TARGET := PyInt 16;
     pubsub_subscribe := stratum_pubsub;
     timestamper_time := PyInt 1400000000;
     connection_ip := PyStr "10.0.0.7";
     share_limiter_submit := fun _ _ _ _ => Some (PyInt 32);
     submit_share := validator |}.

(** A session that has subscribed and authorized [alice]. *)
Definition alice_session : Session :=
  {| authorized := Some {[ alice := PyStr "hunter2" ]};
     extranonce1 := Some (PyStr (allocator 0));
     difficulty := Some (PyInt 16) |}.

(** A session that has subscribed; nobody has authorized on it. *)
Definition subscribed_session : Session :=
  {| authorized := None;
     extranonce1 := Some (PyStr (allocator 0));
     difficulty := Some (PyInt 16) |}.

(** A session on which [alice] has authorized and nobody has subscribed. *)
Definition unsubscribed_session : Session :=
  {| authorized := Some {[ alice := PyStr "hunter2" ]};
     extranonce1 := None;
     difficulty := None |}.

(** [alice]'s session with an extranonce1 that is assigned and empty. *)
Definition empty_extranonce_session : Session :=
  {| authorized := Some {[ alice := PyStr "hunter2" ]};
     extranonce1 := Some (PyStr "");
     difficulty := Some (PyInt 16) |}.

Definition world_of (s : Session) : World :=
  {| session := s; allocated := 1; calls := [] |}.

(** The remaining fields of a submission, as the miner sends them. *)
Definition extranonce2 : PyVal := PyStr "00000001".
Definition ntime : PyVal := PyStr "5f5e1000".
Definition nonce : PyVal := PyStr "deadbeef".

End Example.

(* ===================================================================== *)
(** ** Sessions along the pipeline                                        *)
(* ===================================================================== *)

(** The answer of a [subscribe] whose allocation was [e1], given what
    [Pubsub.subscribe] did. *)
Definition subscribe_answer (I : Interfaces) (e1 : string)
    (pubsub : outcome (list Item)) : outcome (list Item) :=
  match pubsub with
  | Return details =>
      Return (details ++ [Plain (PyStr (hexlify e1)); Plain (extranonce2_size I)])
  | Raise e => Raise e
  end.

(** A record, in the call log, of a share reported as valid. *)
Definition reports_accepted (c : Call) : bool :=
  match c with
  | OnSubmitShare _ _ _ _ _ is_valid _ _ _ => truthy is_valid
  | _ => false
  end.

(** The session after [session.setdefault('authorized', {})]. *)
Definition defaulted (s : Session) : Session :=
  {| authorized := Some (default ∅ (authorized s));
     extranonce1 := extranonce1 s;
     difficulty := difficulty s |}.

(** The session with [authorized] replaced by [m]. *)
Definition with_authorized (m : gmap string PyVal) (s : Session) : Session :=
  {| authorized := Some m; extranonce1 := extranonce1 s; difficulty := difficulty s |}.

(** The session with the [extranonce1] key removed. *)
Definition without_extranonce1 (s : Session) : Session :=
  {| authorized := authorized s; extranonce1 := None; difficulty := difficulty s |}.

(** The credential [submit] hands to the authenticator for [worker_name]. *)
Definition stored_credential (s : Session) (worker_name : string) : PyVal :=
  dict_get (default ∅ (authorized s)) worker_name.

(** The session the validator is handed: [authorized] is there, and the
    share limiter may have retargeted [difficulty] after the snapshot [d]
    was taken. *)
Definition session_at_validation (I : Interfaces) (s : Session)
    (job_id d submit_time : PyVal) (worker_name : string) : Session :=
  {| authorized := Some (default ∅ (authorized s));
     extranonce1 := extranonce1 s;
     difficulty :=
       match share_limiter_submit I job_id d submit_time worker_name with
       | Some d' => Some d'
       | None => difficulty s
       end |}.

(** The calls of a submission up to and including the validator's, in
    order: authorization check, clock, IP, rate bookkeeping, validation. *)
Definition calls_up_to_validation (I : Interfaces) (s : Session) (worker_name : string)
    (job_id extranonce2 ntime nonce e1 d : PyVal) : list Call :=
  [Authorize worker_name (stored_credential s worker_name);
   TimestamperTime;
   GetIp;
   ShareLimiterSubmit job_id d (timestamper_time I) worker_name;
   SubmitShare job_id worker_name
     (session_at_validation I s job_id d (timestamper_time I) worker_name)
     e1 extranonce2 ntime nonce d].

(** The world when the validator has been called with the snapshot [d]. *)
Definition world_at_validation (I : Interfaces) (w : World) (worker_name : string)
    (job_id extranonce2 ntime nonce e1 d : PyVal) : World :=
  {| session :=
       session_at_validation I (session w) job_id d (timestamper_time I) worker_name;
     allocated := allocated w;
     calls := calls w ++
              calls_up_to_validation I (session w) worker_name job_id extranonce2 ntime
                nonce e1 d |}.

(** The world when the authorization check has been made. *)
Definition world_at_authorization (w : World) (worker_name : string) : World :=
  logged (Authorize worker_name (stored_credential (session w) worker_name))
    (with_session (defaulted (session w)) w).

(** The record of an accepted share credited at [credited]. *)
Definition accepted_share (I : Interfaces) (worker_name : string) (r : ShareResult)
    (credited : PyVal) : Call :=
  OnSubmitShare worker_name (block_header r) (block_hash r) credited (timestamper_time I)
    (PyBool true) (connection_ip I) (PyStr "") (share_diff r).

(** The record of a share the validator refused with [msg]. *)
Definition refused_share (I : Interfaces) (worker_name : string) (d : PyVal)
    (msg : string) : Call :=
  OnSubmitShare worker_name (PyBool false) (PyBool false) d (timestamper_time I)
    (PyBool false) (connection_ip I) (PyStr msg) (PyInt 0).

(** The continuation hooked to a pending block submission. *)
Definition block_continuation (I : Interfaces) (worker_name : string) (r : ShareResult)
    : Call :=
  AddCallback (on_submit r) worker_name (block_header r) (block_hash r)
    (timestamper_time I) (connection_ip I) (share_diff r).

(* ===================================================================== *)
(** ** A connection serving requests                                      *)
(* ===================================================================== *)

(** The RPC methods of the service, with their arguments. *)
Inductive Request : Type :=
| CallUpdateBlock
| CallAddLitecoind (args : list PyVal)
| CallAuthorize (worker_name : string) (worker_password : PyVal)
| CallSubscribe (args : list PyVal)
| CallSubmit (worker_name : string) (job_id extranonce2 ntime nonce : PyVal).

(** One request on the connection: the handler runs on the world and its
    answer, a value or an exception, goes back to the caller; the world it
    leaves is the one the next request finds. *)
Definition serve (I : Interfaces) (rq : Request) (w : World) : World :=
  match rq with
  | CallUpdateBlock => snd (update_block w)
  | CallAddLitecoind args => snd (add_litecoind args w)
  | CallAuthorize worker_name worker_password =>
      snd (authorize I worker_name worker_password w)
  | CallSubscribe args => snd (subscribe I args w)
  | CallSubmit worker_name job_id extranonce2 ntime nonce =>
      snd (submit I worker_name job_id extranonce2 ntime nonce w)
  end.

(** The requests of a connection, served in order. *)
Definition serve_all (I : Interfaces) (rqs : list Request) (w : World) : World :=
  fold_left (fun w rq => serve I rq w) rqs w.

Definition is_subscribe (rq : Request) : bool :=
  match rq with CallSubscribe _ => true | _ => false end.

(** The number of [subscribe] requests in a run. *)
Definition subscribes (rqs : list Request) : nat :=
  length (List.filter is_subscribe rqs).

(** A connection nobody has called yet: the session dictionary is empty. *)
Definition fresh_connection (n : nat) (l : list Call) : World :=
  {| session := empty_session; allocated := n; calls := l |}.

(** Exceptions the [except SubmitException] clause lets through. *)
Definition not_SubmitException (e : exn) : bool :=
  match e with SubmitException _ => false | _ => true end.

(** Every credential in the session's [authorized] map is one the
    authenticator accepts. *)
Definition credentials_accepted (I : Interfaces) (s : Session) : Prop :=
  forall worker_name password,
    default ∅ (authorized s) !! worker_name = Some password ->
    worker_manager_authorize I worker_name password = true.

(** A session with an [extranonce1] key has a [difficulty] key. *)
Definition subscribed_with_difficulty (s : Session) : Prop :=
  is_Some (extranonce1 s) -> is_Some (difficulty s).

(** The characters [hexlify] writes. *)
Definition is_hex_digit (c : ascii) : bool :=
  existsb (Ascii.eqb c)
    ["0"; "1"; "2"; "3"; "4"; "5"; "6"; "7"; "8"; "9"; "a"; "b"; "c"; "d"; "e"; "f"]%char.

Fixpoint all_hex_digits (s : string) : bool :=
  match s with
  | EmptyString => true
  | String c rest => is_hex_digit c && all_hex_digits rest
  end.

(** The value of a hexadecimal digit, for reading [hexlify] back. *)
Definition hex_value (c : ascii) : N :=
  match c with
  | "0" => 0 | "1" => 1 | "2" => 2 | "3" => 3
  | "4" => 4 | "5" => 5 | "6" => 6 | "7" => 7
  | "8" => 8 | "9" => 9 | "a" => 10 | "b" => 11
  | "c" => 12 | "d" => 13 | "e" => 14 | _ => 15
  end%char%N.

(** Two digits back into one byte, pair by pair; an odd digit is dropped. *)
Fixpoint read_hex (s : string) : string :=
  match s with
  | String hi (String lo rest) =>
      String (ascii_of_N (16 * hex_value hi + hex_value lo)) (read_hex rest)
  | _ => EmptyString
  end.

(* ===================================================================== *)
(** ** More sessions and pools                                            *)
(* ===================================================================== *)

Module Scenarios.
Import Example.

(** [alice]'s session, holding a password the database no longer accepts. *)
Definition stale_session : Session :=
  {| authorized := Some {[ alice := PyStr "letmein" ]};
     extranonce1 := Some (PyStr (allocator 0));
     difficulty := Some (PyInt 16) |}.

(** [alice]'s session with the [extranonce1] key set to [None]. *)
Definition none_extranonce_session : Session :=
  {| authorized := Some {[ alice := PyStr "hunter2" ]};
     extranonce1 := Some PyNone;
     difficulty := Some (PyInt 16) |}.

(** [alice]'s session with an [extranonce1] and no [difficulty] key. *)
Definition no_difficulty_session : Session :=
  {| authorized := Some {[ alice := PyStr "hunter2" ]};
     extranonce1 := Some (PyStr (allocator 0));
     difficulty := None |}.

(** A validator that fails with an exception of its own on every share. *)
Definition crashing_validator (job_id : PyVal) (worker_name : string) (s : Session)
    (extranonce1_bin extranonce2 ntime nonce difficulty : PyVal) : outcome ShareResult :=
  Raise (OtherError "TypeError").

Definition crashing_pool : Interfaces :=
  {| worker_manager_authorize := password_db;
     get_new_extranonce1 := allocator;
     extranonce2_size := PyInt 4;
     POOL_TARGET := PyInt 16;
     pubsub_subscribe := Example.stratum_pubsub;
     timestamper_time := PyInt 1400000000;
     connection_ip := PyStr "10.0.0.7";
     share_limiter_submit := fun _ _ _ _ => None;
     submit_share := crashing_validator |}.

(** A submission of [alice] as a request. *)
Definition alice_submits (job : string) : Request :=
  CallSubmit alice (PyStr job) extranonce2 ntime nonce.

End Scenarios.

(* ===================================================================== *)
(** * Properties                                                          *)
(* ===================================================================== *)

(** Unfolding the monad and the session accessors. *)
Create HintDb py_run.
#[local] Hint Unfold bind ret raise get_session put_session log_call
  try_except_SubmitException setdefault_authorized session_authorized
  set_session_authorized set_session_extranonce1 set_session_difficulty
  session_difficulty session_get_extranonce1 call_update_block call_add_connection
  call_authorize call_get_new_extranonce1 call_pubsub_subscribe call_time call_get_ip
  call_share_limiter_submit call_submit_share call_on_submit_share call_add_callback
  eval_if_header logged with_session defaulted stored_credential with_authorized
  world_at_validation world_at_authorization accepted_share refused_share
  block_continuation calls_up_to_validation session_at_validation : py_run.

Ltac run := autounfold with py_run; simpl.

Section PythonValues.

Lemma hexlify_length (data : string) :
  String.length (hexlify data) = 2 * String.length data.
Proof.
  induction data as [|c rest IH]; simpl; [reflexivity|].
  rewrite IH. lia.
Qed.

Example hexlify_aa11bb22 : hexlify (Example.allocator 0) = "aa11bb22".
Proof. reflexivity. Qed.

(** A value that passes [if v] is not [== False]. *)
Lemma truthy_not_eq_False (v : PyVal) :
  truthy v = true -> py_eq v (PyBool false) = false.
Proof.
  destruct v as [|b|n|s|i]; simpl; try reflexivity.
  - now intros ->.
  - intros H. apply negb_true_iff in H. exact H.
Qed.

(** [v != None] fails for [None] only. *)
Lemma py_ne_None (v : PyVal) : py_ne v PyNone = false <-> v = PyNone.
Proof. destruct v; unfold py_ne; simpl; split; intros H; congruence. Qed.

Lemma dict_get_missing (m : gmap string PyVal) (k : string) :
  m !! k = None -> dict_get m k = PyNone.
Proof. unfold dict_get. now intros ->. Qed.

End PythonValues.

Section AdminCalls.
Variable I : Interfaces.

Lemma update_block_refreshes (w : World) :
  update_block w = (Return true, logged UpdateBlock w).
Proof. reflexivity. Qed.

(** C8. [add_litecoind] with an argument count other than 4 raises
    [SubmitException("Incorrect number of parameters sent")] and leaves
    the world as it was: the daemon registry has not been called.  With
    exactly 4 arguments it calls [add_connection(host, port, user,
    password)] once, with the arguments in order, and returns [True]. *)
Theorem add_litecoind_arity (args : list PyVal) (w : World) :
  (length args <> 4 ->
   add_litecoind args w =
     (Raise (SubmitException "Incorrect number of parameters sent"), w))
  /\ (forall host port user password,
        args = [host; port; user; password] ->
        add_litecoind args w =
          (Return true, logged (AddConnection host port user password) w)).
Proof.
  split.
  - intros Hlen. unfold add_litecoind.
    destruct (Nat.eqb_spec (length args) 4) as [E|_]; [contradiction|].
    reflexivity.
  - intros host port user password ->. reflexivity.
Qed.

End AdminCalls.

(** 3 and 5 arguments are refused with no connection attempt, 4 register
    the endpoint. *)
Lemma add_litecoind_arity_witness :
  let a := PyStr "127.0.0.1" in
  let b := PyInt 9332 in
  let c := PyStr "rpcuser" in
  let d := PyStr "rpcpass" in
  (add_litecoind [a; b; c] initial_world =
     (Raise (SubmitException "Incorrect number of parameters sent"), initial_world))
  /\ (add_litecoind [a; b; c; d; PyNone] initial_world =
     (Raise (SubmitException "Incorrect number of parameters sent"), initial_world))
  /\ (add_litecoind [a; b; c; d] initial_world =
     (Return true, logged (AddConnection a b c d) initial_world)).
Proof.
  intros a b c d. split; [|split].
  - apply (proj1 (add_litecoind_arity [a; b; c] initial_world)). simpl. lia.
  - apply (proj1 (add_litecoind_arity [a; b; c; d; PyNone] initial_world)). simpl. lia.
  - apply (proj2 (add_litecoind_arity [a; b; c; d] initial_world) a b c d). reflexivity.
Defined.

Section AuthorizeAndSubscribe.
Variable I : Interfaces.

(** After [setdefault], [session['authorized']] is there to be read. *)
Lemma session_authorized_after_setdefault (w : World) :
  (setdefault_authorized ;; session_authorized) w =
    (Return (default ∅ (authorized (session w))), with_session (defaulted (session w)) w).
Proof.
  destruct w as [[a e d] n l]. run. destruct a; reflexivity.
Qed.

(** One [authorize]: the authenticator's answer decides between an insert
    and a delete on the [authorized] map. *)
Lemma authorize_run (worker_name : string) (worker_password : PyVal) (w : World) :
  let m := default ∅ (authorized (session w)) in
  authorize I worker_name worker_password w =
    if worker_manager_authorize I worker_name worker_password then
      (Return true,
       logged (Authorize worker_name worker_password)
         (with_session (with_authorized (<[worker_name := worker_password]> m) (session w)) w))
    else
      (Return false,
       logged (Authorize worker_name worker_password)
         (with_session (with_authorized (delete worker_name m) (session w)) w)).
Proof.
  destruct w as [[a e d] n l]. unfold authorize, with_authorized. run.
  destruct (worker_manager_authorize I worker_name worker_password).
  - destruct a; reflexivity.
  - destruct a as [m|]; simpl.
    + destruct (decide (is_Some (m !! worker_name))) as [Hin|Hout]; simpl.
      * reflexivity.
      * rewrite delete_id; [reflexivity|].
        now apply eq_None_not_Some.
    + destruct (decide (is_Some ((∅ : gmap string PyVal) !! worker_name))) as [Hin|Hout];
        simpl.
      * rewrite lookup_empty in Hin. destruct Hin as [? ?]. discriminate.
      * rewrite delete_empty. reflexivity.
Qed.

(** C5. [authorize(worker_name, worker_password)] asks the Worker
    Authenticator once about the pair and returns its answer as a boolean:
    the outcome is never a raised error.  If the authenticator accepts, the
    password is stored under [worker_name] in the session's [authorized]
    map and the call returns [True]; if it rejects, [worker_name] has no
    entry afterwards, whatever was stored before, and the call returns
    [False].  The entries of other workers, the session's [extranonce1] and
    its [difficulty] are left as they were. *)
Theorem authorize_stores_or_removes
    (worker_name : string) (worker_password : PyVal) (w : World) :
  let accepted := worker_manager_authorize I worker_name worker_password in
  let before := default ∅ (authorized (session w)) in
  let result := authorize I worker_name worker_password w in
  fst result = Return accepted
  /\ calls (snd result) = calls w ++ [Authorize worker_name worker_password]
  /\ authorized (session (snd result)) =
       Some (if accepted
             then <[worker_name := worker_password]> before
             else delete worker_name before)
  /\ (exists after,
        authorized (session (snd result)) = Some after
        /\ after !! worker_name = (if accepted then Some worker_password else None)
        /\ forall other, other <> worker_name -> after !! other = before !! other)
  /\ extranonce1 (session (snd result)) = extranonce1 (session w)
  /\ difficulty (session (snd result)) = difficulty (session w)
  /\ allocated (snd result) = allocated w.
Proof.
  cbv zeta. rewrite authorize_run. cbv zeta.
  destruct (worker_manager_authorize I worker_name worker_password); simpl;
    (split; [reflexivity|]); (split; [reflexivity|]); (split; [reflexivity|]);
    (split; [|repeat split]); eexists; (split; [reflexivity|]); split.
  - apply lookup_insert_eq.
  - intros other Hne. now apply lookup_insert_ne.
  - apply lookup_delete_eq.
  - intros other Hne. now apply lookup_delete_ne.
Qed.

(** One [subscribe]: the next value of the allocator goes into the
    session and the difficulty is reset to the pool default, before
    [Pubsub.subscribe] is called and whatever it does. *)
Lemma subscribe_run (args : list PyVal) (w : World) :
  let e1 := get_new_extranonce1 I (allocated w) in
  subscribe I args w =
    (subscribe_answer I e1 (pubsub_subscribe I (calls w ++ [GetNewExtranonce1])),
     {| session := {| authorized := authorized (session w);
                      extranonce1 := Some (PyStr e1);
                      difficulty := Some (POOL_TARGET I) |};
        allocated := S (allocated w);
        calls := calls w ++ [GetNewExtranonce1; PubsubSubscribe] |}).
Proof.
  destruct w as [[a e d] n l]. unfold subscribe, subscribe_answer. run.
  destruct (pubsub_subscribe I (l ++ [GetNewExtranonce1])); simpl;
    rewrite <- app_assoc; reflexivity.
Qed.

(** With an allocator that never repeats a value, re-subscribing changes
    the session's extranonce1. *)
Corollary resubscribe_changes_extranonce1 (args args' : list PyVal) (w : World) :
  (forall i j, get_new_extranonce1 I i = get_new_extranonce1 I j -> i = j) ->
  let w1 := snd (subscribe I args w) in
  let w2 := snd (subscribe I args' w1) in
  extranonce1 (session w2) <> extranonce1 (session w1).
Proof.
  intros Hinj. cbv zeta. rewrite !subscribe_run. simpl. rewrite ?subscribe_run. simpl.
  intros [=H]. apply Hinj in H. lia.
Qed.

End AuthorizeAndSubscribe.


Section SubmitPipeline.
Variable I : Interfaces.
Variables (worker_name : string) (job_id extranonce2 ntime nonce : PyVal).

(** The paths of [submit], one per way out of the function, for any header
    of the [if] on line 109. *)
Lemma submit_with_paths (h : if_header) (w : World) :
  submit_with I h worker_name job_id extranonce2 ntime nonce w =
    let s := session w in
    let w1 := world_at_authorization w worker_name in
    if negb (worker_manager_authorize I worker_name (stored_credential s worker_name)) then
      (Raise (SubmitException "Worker is not authorized"), w1)
    else
      let e1 := default PyNone (extranonce1 s) in
      if negb (truthy e1) then
        (Raise (SubmitException "Connection is not subscribed for mining"), w1)
      else
        match difficulty s with
        | None => (Raise (KeyError "difficulty"), w1)
        | Some d =>
            let wv := world_at_validation I w worker_name job_id extranonce2 ntime nonce e1 d in
            match submit_share I job_id worker_name (session wv) e1 extranonce2 ntime
                    nonce d with
            | Raise (SubmitException msg) =>
                (Raise (SubmitException msg), logged (refused_share I worker_name d msg) wv)
            | Raise e => (Raise e, wv)
            | Return r =>
                match header_test
                        (locals_at_line_109 worker_name job_id extranonce2 ntime nonce e1 d
                           (timestamper_time I) (connection_ip I) r) h with
                | Raise e => (Raise e, wv)
                | Return test =>
                    let credited := if test then d else shareAtOldDiff r in
                    let w3 := logged (accepted_share I worker_name r credited) wv in
                    (Return true,
                     if py_ne (on_submit r) PyNone
                     then logged (block_continuation I worker_name r) w3
                     else w3)
                end
            end
        end.
Proof.
  destruct w as [[a e dd] n l]. unfold submit_with. run.
  destruct a as [m|]; simpl;
    (destruct (worker_manager_authorize I worker_name _); simpl; [|reflexivity]);
    (destruct (truthy (default PyNone e)); simpl; [|reflexivity]);
    (destruct dd as [d|]; simpl; [|reflexivity]);
    (destruct (share_limiter_submit I job_id d (timestamper_time I) worker_name); simpl);
    rewrite <- ?app_assoc; simpl;
    (match goal with
     | |- context [submit_share ?i ?j ?n ?s ?e1 ?e2 ?nt ?no ?d] =>
         destruct (submit_share i j n s e1 e2 nt no d) as [r|[msg|k|x| |x]]
     end; simpl; rewrite <- ?app_assoc; simpl; try reflexivity);
    (match goal with
     | |- context [header_test ?ls ?hh] => destruct (header_test ls hh) as [[|]|x]
     end; simpl; rewrite <- ?app_assoc; simpl; try reflexivity);
    (destruct (py_ne (on_submit r) PyNone); simpl; rewrite <- ?app_assoc; reflexivity).
Qed.
Lemma submit_paths (w : World) :
  submit I worker_name job_id extranonce2 ntime nonce w =
    submit_with I line_109 worker_name job_id extranonce2 ntime nonce w.
Proof. reflexivity. Qed.

(** C2. When the worker passes the authorization check, the session is
    subscribed and the validator raises [SubmitException(msg)], [submit]
    records the share as invalid with the Outcome Recorder, with block
    header [False], block hash [False], the difficulty snapshotted before
    the rate bookkeeping, accepted [False], the validator's message and
    share difficulty 0, as the last call of the pipeline, and then raises
    the same [SubmitException(msg)] to the caller. *)
Theorem submit_validation_failure_recorded_and_raised
    (w : World) (e1 d : PyVal) (msg : string) :
  worker_manager_authorize I worker_name (stored_credential (session w) worker_name) = true ->
  extranonce1 (session w) = Some e1 ->
  truthy e1 = true ->
  difficulty (session w) = Some d ->
  submit_share I job_id worker_name
    (session_at_validation I (session w) job_id d (timestamper_time I) worker_name)
    e1 extranonce2 ntime nonce d = Raise (SubmitException msg) ->
  submit I worker_name job_id extranonce2 ntime nonce w =
    (Raise (SubmitException msg),
     {| session :=
          session_at_validation I (session w) job_id d (timestamper_time I) worker_name;
        allocated := allocated w;
        calls :=
          calls w ++
          calls_up_to_validation I (session w) worker_name job_id extranonce2 ntime nonce
            e1 d ++
          [OnSubmitShare worker_name (PyBool false) (PyBool false) d (timestamper_time I)
             (PyBool false) (connection_ip I) (PyStr msg) (PyInt 0)] |}).
Proof.
  intros Hauth He1 Htruthy Hd Hval.
  rewrite submit_paths, submit_with_paths. cbv zeta.
  rewrite Hauth, He1, Hd. simpl. rewrite Htruthy. simpl.
  unfold world_at_validation at 1. simpl. rewrite Hval.
  unfold logged, refused_share, world_at_validation. simpl.
  rewrite <- app_assoc. reflexivity.
Qed.

(** C3, as amended. When the worker has no entry in the session's
    [authorized] map, the Worker Authenticator is asked about
    [(worker_name, None)]; if it rejects that pair, [submit] raises
    [SubmitException("Worker is not authorized")] and the authenticator
    call is the only collaborator call made: no clock read, no rate
    bookkeeping, no validation, no outcome recording. *)
Theorem submit_rejected_credential_stops_pipeline (w : World) :
  default ∅ (authorized (session w)) !! worker_name = None ->
  worker_manager_authorize I worker_name PyNone = false ->
  submit I worker_name job_id extranonce2 ntime nonce w =
    (Raise (SubmitException "Worker is not authorized"),
     {| session := defaulted (session w);
        allocated := allocated w;
        calls := calls w ++ [Authorize worker_name PyNone] |}).
Proof.
  intros Hno Hrej.
  rewrite submit_paths, submit_with_paths. cbv zeta.
  unfold stored_credential, world_at_authorization, stored_credential.
  rewrite (dict_get_missing _ _ Hno), Hrej. reflexivity.
Qed.

(** C4. On a session with no [extranonce1], a [submit] by a worker who
    passes the authorization check raises
    [SubmitException("Connection is not subscribed for mining")].  The
    authorization check is the only collaborator call made: it precedes the
    failure, and the difficulty snapshot, the clock read, the rate
    bookkeeping and the validation do not happen. *)
Theorem submit_unsubscribed_fails (w : World) :
  extranonce1 (session w) = None ->
  worker_manager_authorize I worker_name (stored_credential (session w) worker_name) = true ->
  submit I worker_name job_id extranonce2 ntime nonce w =
    (Raise (SubmitException "Connection is not subscribed for mining"),
     {| session := defaulted (session w);
        allocated := allocated w;
        calls := calls w ++
                 [Authorize worker_name (stored_credential (session w) worker_name)] |}).
Proof.
  intros He1 Hauth.
  rewrite submit_paths, submit_with_paths. cbv zeta.
  rewrite Hauth, He1. reflexivity.
Qed.

(** On an unsubscribed session a worker who does not pass the authorization
    check is told so: that check comes first. *)
Lemma submit_unsubscribed_unauthorized (w : World) :
  extranonce1 (session w) = None ->
  worker_manager_authorize I worker_name (stored_credential (session w) worker_name) = false ->
  fst (submit I worker_name job_id extranonce2 ntime nonce w) =
    Raise (SubmitException "Worker is not authorized").
Proof.
  intros He1 Hauth.
  rewrite submit_paths, submit_with_paths. cbv zeta.
  rewrite Hauth. reflexivity.
Qed.



(** C10. The subscription check looks at the truth value of the session's
    [extranonce1]: with an [extranonce1] that is assigned and is the empty
    string, [submit] has the outcome and makes the calls it has on the same
    session without the [extranonce1] key, and for a worker who passes the
    authorization check that outcome is
    [SubmitException("Connection is not subscribed for mining")]. *)
Theorem submit_empty_extranonce1_is_unsubscribed (w : World) :
  extranonce1 (session w) = Some (PyStr "") ->
  let unsubscribed := with_session (without_extranonce1 (session w)) w in
  let result := submit I worker_name job_id extranonce2 ntime nonce w in
  let result' := submit I worker_name job_id extranonce2 ntime nonce unsubscribed in
  fst result = fst result'
  /\ calls (snd result) = calls (snd result')
  /\ (worker_manager_authorize I worker_name (stored_credential (session w) worker_name)
        = true ->
      fst result = Raise (SubmitException "Connection is not subscribed for mining")).
Proof.
  intros He1. cbv zeta.
  rewrite !submit_paths, !submit_with_paths. cbv zeta.
  rewrite He1. unfold stored_credential. simpl.
  destruct (worker_manager_authorize I worker_name _); simpl.
  - repeat split; reflexivity.
  - split; [reflexivity|]. split; [reflexivity|]. intros [=].
Qed.

End SubmitPipeline.

(* ===================================================================== *)
(** ** Line 109                                                           *)
(* ===================================================================== *)

Section Line109.
Variable I : Interfaces.
Variables (worker_name : string) (job_id extranonce2 ntime nonce : PyVal).

(** Read as the comparison [shareAtOldDiff == False], the header tests the
    validator's fifth value against [False]. *)
Lemma comparison_header_test (e1 d t ip : PyVal) (r : ShareResult) :
  header_test (locals_at_line_109 worker_name job_id extranonce2 ntime nonce e1 d t ip r)
    line_109_comparison = Return (py_eq (shareAtOldDiff r) (PyBool false)).
Proof. reflexivity. Qed.

(** With [==] and the name [false] kept, the name is not bound. *)
Lemma lowercase_false_unbound (e1 d t ip : PyVal) (r : ShareResult) :
  header_test (locals_at_line_109 worker_name job_id extranonce2 ntime nonce e1 d t ip r)
    (Comparison "shareAtOldDiff" "false") = Raise (NameError "false").
Proof. reflexivity. Qed.

(** As written, the header is an assignment, whatever the values are. *)
Lemma line_109_header_test (locals : list (string * PyVal)) :
  header_test locals line_109 = Raise SyntaxError.
Proof. reflexivity. Qed.

(** A share the validator accepts gets as far as line 109: the validator's
    call is the last one, nothing is recorded and nothing is replied. *)
Lemma submit_validated_share_stops_at_line_109 (w : World) (e1 d : PyVal) (r : ShareResult) :
  worker_manager_authorize I worker_name (stored_credential (session w) worker_name) = true ->
  extranonce1 (session w) = Some e1 ->
  truthy e1 = true ->
  difficulty (session w) = Some d ->
  submit_share I job_id worker_name
    (session_at_validation I (session w) job_id d (timestamper_time I) worker_name)
    e1 extranonce2 ntime nonce d = Return r ->
  submit I worker_name job_id extranonce2 ntime nonce w =
    (Raise SyntaxError,
     world_at_validation I w worker_name job_id extranonce2 ntime nonce e1 d).
Proof.
  intros Hauth He1 Htruthy Hd Hval.
  rewrite submit_paths, submit_with_paths. cbv zeta.
  rewrite Hauth, He1, Hd. simpl. rewrite Htruthy. simpl.
  unfold world_at_validation at 1. simpl. rewrite Hval. reflexivity.
Qed.

(** With the header read as [shareAtOldDiff == False], an accepted share is
    recorded once, credited at the snapshot when the validator's fifth value
    is [== False] and at that value otherwise; a continuation is hooked to
    [on_submit] exactly when it is not [None]; and [True] is returned. *)
Lemma submit_with_comparison_accepts (w : World) (e1 d : PyVal) (r : ShareResult) :
  worker_manager_authorize I worker_name (stored_credential (session w) worker_name) = true ->
  extranonce1 (session w) = Some e1 ->
  truthy e1 = true ->
  difficulty (session w) = Some d ->
  submit_share I job_id worker_name
    (session_at_validation I (session w) job_id d (timestamper_time I) worker_name)
    e1 extranonce2 ntime nonce d = Return r ->
  let credited := if py_eq (shareAtOldDiff r) (PyBool false) then d else shareAtOldDiff r in
  let wv := world_at_validation I w worker_name job_id extranonce2 ntime nonce e1 d in
  let recorded := logged (accepted_share I worker_name r credited) wv in
  submit_with I line_109_comparison worker_name job_id extranonce2 ntime nonce w =
    (Return true,
     if py_ne (on_submit r) PyNone
     then logged (block_continuation I worker_name r) recorded
     else recorded).
Proof.
  intros Hauth He1 Htruthy Hd Hval.
  rewrite submit_with_paths. cbv zeta.
  rewrite Hauth, He1, Hd. simpl. rewrite Htruthy. simpl.
  unfold world_at_validation at 1. simpl. rewrite Hval.
  reflexivity.
Qed.

(** The difficulty the comparison reading credits: the old difficulty for a
    value that passes [if v], the snapshot for [False]. *)
Lemma comparison_credits_old_difficulty (d v : PyVal) :
  (truthy v = true -> (if py_eq v (PyBool false) then d else v) = v)
  /\ (v = PyBool false -> (if py_eq v (PyBool false) then d else v) = d).
Proof.
  split.
  - intros H. now rewrite (truthy_not_eq_False v H).
  - intros ->. reflexivity.
Qed.

End Line109.

Section RunningExample.
Import Example.

(** C1. The share of the running example: the session is at difficulty 16
    after a retarget from 8, and the validator accepts a share on the old
    job with share difficulty 8 and old difficulty 8.  [submit] gets as far
    as the header on line 109 and ends there with a [SyntaxError]: the
    Outcome Recorder is never called, so the share is credited neither at 8
    nor at 16.  A plain share, for which the validator returns [False] as
    the old difficulty, ends the same way and is not recorded at the
    snapshot either. *)
Theorem submit_old_difficulty_share_not_credited :
  let I := pool password_db in
  let w := world_of alice_session in
  let result := submit I alice (PyStr "job_old") extranonce2 ntime nonce w in
  let plain := submit I alice (PyStr "job_new") extranonce2 ntime nonce w in
  submit_share I (PyStr "job_old") alice alice_session (PyStr (allocator 0)) extranonce2
    ntime nonce (PyInt 16) =
    Return (mkShareResult (PyBool false) (PyBool false) (PyInt 8) PyNone (PyInt 8))
  /\ fst result = Raise SyntaxError
  /\ existsb is_OnSubmitShare (calls (snd result)) = false
  /\ submit_share I (PyStr "job_new") alice alice_session (PyStr (allocator 0)) extranonce2
       ntime nonce (PyInt 16) =
       Return (mkShareResult (PyBool false) (PyBool false) (PyInt 16) PyNone (PyBool false))
  /\ fst plain = Raise SyntaxError
  /\ existsb is_OnSubmitShare (calls (snd plain)) = false.
Proof.
  cbv zeta.
  rewrite (submit_validated_share_stops_at_line_109 (pool password_db) alice
             (PyStr "job_old") extranonce2 ntime nonce (world_of alice_session)
             (PyStr (allocator 0)) (PyInt 16)
             (mkShareResult (PyBool false) (PyBool false) (PyInt 8) PyNone (PyInt 8)))
    by reflexivity.
  rewrite (submit_validated_share_stops_at_line_109 (pool password_db) alice
             (PyStr "job_new") extranonce2 ntime nonce (world_of alice_session)
             (PyStr (allocator 0)) (PyInt 16)
             (mkShareResult (PyBool false) (PyBool false) (PyInt 16) PyNone (PyBool false)))
    by reflexivity.
  repeat split.
Qed.

(** C6. A block-solving share: the validator returns a header, a hash and
    a pending [Deferred].  [submit] ends at the header on line 109 with a
    [SyntaxError] instead of returning [True]; the share is not recorded and
    no continuation is hooked to the [Deferred]. *)
Theorem submit_block_share_no_reply :
  let I := pool password_db in
  let w := world_of alice_session in
  let result := submit I alice (PyStr "job_block") extranonce2 ntime nonce w in
  submit_share I (PyStr "job_block") alice alice_session (PyStr (allocator 0)) extranonce2
    ntime nonce (PyInt 16) =
    Return (mkShareResult (PyStr "header") (PyStr "hash") (PyInt 4096) (PyRef 1)
              (PyBool false))
  /\ fst result = Raise SyntaxError
  /\ fst result <> Return true
  /\ existsb is_OnSubmitShare (calls (snd result)) = false
  /\ existsb is_AddCallback (calls (snd result)) = false.
Proof.
  cbv zeta.
  rewrite (submit_validated_share_stops_at_line_109 (pool password_db) alice
             (PyStr "job_block") extranonce2 ntime nonce (world_of alice_session)
             (PyStr (allocator 0)) (PyInt 16)
             (mkShareResult (PyStr "header") (PyStr "hash") (PyInt 4096) (PyRef 1)
                (PyBool false)))
    by reflexivity.
  repeat split. discriminate.
Qed.

(** The same two shares with line 109 read as [shareAtOldDiff == False]:
    the first is credited at 8, the second at 16 with a continuation, and
    both are answered [True]. *)
Example comparison_reading_of_the_example :
  let I := pool password_db in
  let w := world_of alice_session in
  let old := submit_with I line_109_comparison alice (PyStr "job_old") extranonce2 ntime
               nonce w in
  let block := submit_with I line_109_comparison alice (PyStr "job_block") extranonce2
                 ntime nonce w in
  fst old = Return true
  /\ last (calls (snd old)) =
       Some (OnSubmitShare alice (PyBool false) (PyBool false) (PyInt 8) (PyInt 1400000000)
               (PyBool true) (PyStr "10.0.0.7") (PyStr "") (PyInt 8))
  /\ fst block = Return true
  /\ last (calls (snd block)) =
       Some (AddCallback (PyRef 1) alice (PyStr "header") (PyStr "hash") (PyInt 1400000000)
               (PyStr "10.0.0.7") (PyInt 4096))
  /\ last (removelast (calls (snd block))) =
       Some (OnSubmitShare alice (PyStr "header") (PyStr "hash") (PyInt 16)
               (PyInt 1400000000) (PyBool true) (PyStr "10.0.0.7") (PyStr "") (PyInt 4096)).
Proof. vm_compute. repeat split. Qed.

(** C3, as stated, fails. [bob] never authorized on this connection; the
    authenticator accepts every pair, [(bob, None)] included.  His [submit]
    does not end with the authorization error: the rate bookkeeping, the
    validation and the outcome recording all run, and the error he gets is
    the validator's. *)
Lemma submit_never_authorized_worker_validated :
  let I := pool accept_everyone in
  let w := world_of subscribed_session in
  let result := submit I bob (PyStr "job_x") extranonce2 ntime nonce w in
  authorized (session w) = None
  /\ fst result <> Raise (SubmitException "Worker is not authorized")
  /\ fst result = Raise (SubmitException "Job not found")
  /\ calls (snd result) =
       [Authorize bob PyNone;
        TimestamperTime;
        GetIp;
        ShareLimiterSubmit (PyStr "job_x") (PyInt 16) (PyInt 1400000000) bob;
        SubmitShare (PyStr "job_x") bob (defaulted subscribed_session)
          (PyStr (allocator 0)) extranonce2 ntime nonce (PyInt 16);
        OnSubmitShare bob (PyBool false) (PyBool false) (PyInt 16) (PyInt 1400000000)
          (PyBool false) (PyStr "10.0.0.7") (PyStr "Job not found") (PyInt 0)].
Proof. vm_compute. repeat split. discriminate. Qed.

End RunningExample.

(* ===================================================================== *)
(** ** The theorems on the running example                                *)
(* ===================================================================== *)

Section Instances.
Import Example.

(** [alice] submits on an unknown job while the share limiter retargets her
    session to 32: the refusal is recorded at the snapshot, 16, and
    raised. *)
Lemma submit_validation_failure_witness :
  let I := retargeting_pool password_db in
  let w := world_of alice_session in
  (worker_manager_authorize I alice (stored_credential (session w) alice) = true
   /\ extranonce1 (session w) = Some (PyStr (allocator 0))
   /\ truthy (PyStr (allocator 0)) = true
   /\ difficulty (session w) = Some (PyInt 16)
   /\ submit_share I (PyStr "job_x") alice
        (session_at_validation I (session w) (PyStr "job_x") (PyInt 16)
           (timestamper_time I) alice)
        (PyStr (allocator 0)) extranonce2 ntime nonce (PyInt 16) =
      Raise (SubmitException "Job not found"))
  /\ submit I alice (PyStr "job_x") extranonce2 ntime nonce w =
       (Raise (SubmitException "Job not found"),
        {| session :=
             session_at_validation I (session w) (PyStr "job_x") (PyInt 16)
               (timestamper_time I) alice;
           allocated := allocated w;
           calls :=
             calls w ++
             calls_up_to_validation I (session w) alice (PyStr "job_x") extranonce2 ntime
               nonce (PyStr (allocator 0)) (PyInt 16) ++
             [OnSubmitShare alice (PyBool false) (PyBool false) (PyInt 16)
                (timestamper_time I) (PyBool false) (connection_ip I)
                (PyStr "Job not found") (PyInt 0)] |}).
Proof.
  intros I w.
  split; [repeat split|].
  apply (submit_validation_failure_recorded_and_raised I alice (PyStr "job_x") extranonce2
           ntime nonce w (PyStr (allocator 0)) (PyInt 16) "Job not found");
    reflexivity.
Defined.

(** [bob] has no entry and the password database rejects [(bob, None)]. *)
Lemma submit_rejected_credential_witness :
  let I := pool password_db in
  let w := world_of subscribed_session in
  (default ∅ (authorized (session w)) !! bob = None
   /\ worker_manager_authorize I bob PyNone = false)
  /\ submit I bob (PyStr "job_new") extranonce2 ntime nonce w =
       (Raise (SubmitException "Worker is not authorized"),
        {| session := defaulted (session w);
           allocated := allocated w;
           calls := calls w ++ [Authorize bob PyNone] |}).
Proof.
  intros I w.
  split; [split; reflexivity|].
  apply (submit_rejected_credential_stops_pipeline I bob (PyStr "job_new") extranonce2
           ntime nonce w); reflexivity.
Defined.

(** [alice] is authorized, nobody has subscribed. *)
Lemma submit_unsubscribed_witness :
  let I := pool password_db in
  let w := world_of unsubscribed_session in
  (extranonce1 (session w) = None
   /\ worker_manager_authorize I alice (stored_credential (session w) alice) = true)
  /\ submit I alice (PyStr "job_new") extranonce2 ntime nonce w =
       (Raise (SubmitException "Connection is not subscribed for mining"),
        {| session := defaulted (session w);
           allocated := allocated w;
           calls := calls w ++ [Authorize alice (stored_credential (session w) alice)] |}).
Proof.
  intros I w.
  split; [split; reflexivity|].
  apply (submit_unsubscribed_fails I alice (PyStr "job_new") extranonce2 ntime nonce w);
    reflexivity.
Defined.


(** [alice]'s session with an empty extranonce1. *)
Lemma submit_empty_extranonce1_witness :
  let I := pool password_db in
  let w := world_of empty_extranonce_session in
  let unsubscribed := with_session (without_extranonce1 (session w)) w in
  let result := submit I alice (PyStr "job_new") extranonce2 ntime nonce w in
  let result' := submit I alice (PyStr "job_new") extranonce2 ntime nonce unsubscribed in
  extranonce1 (session w) = Some (PyStr "")
  /\ worker_manager_authorize I alice (stored_credential (session w) alice) = true
  /\ fst result = fst result'
  /\ calls (snd result) = calls (snd result')
  /\ fst result = Raise (SubmitException "Connection is not subscribed for mining").
Proof.
  intros I w unsubscribed result result'.
  pose proof (submit_empty_extranonce1_is_unsubscribed I alice (PyStr "job_new")
                extranonce2 ntime nonce w eq_refl) as [Hfst [Hcalls Hmsg]].
  split; [reflexivity|]. split; [reflexivity|].
  split; [exact Hfst|]. split; [exact Hcalls|].
  apply Hmsg. reflexivity.
Defined.

End Instances.

(* ===================================================================== *)
(** * Further properties                                                  *)
(* ===================================================================== *)

(* ===================================================================== *)
(** ** The hexadecimal form of extranonce1                                *)
(* ===================================================================== *)

Section Hexlify.

Lemma hexlify_byte_digits (c : ascii) :
  is_hex_digit (hex_digit (N_of_ascii c / 16)) = true
  /\ is_hex_digit (hex_digit (N_of_ascii c mod 16)) = true.
Proof. destruct c as [[] [] [] [] [] [] [] []]; split; reflexivity. Qed.

Lemma hexlify_byte_read_back (c : ascii) :
  ascii_of_N (16 * hex_value (hex_digit (N_of_ascii c / 16))
              + hex_value (hex_digit (N_of_ascii c mod 16))) = c.
Proof. destruct c as [[] [] [] [] [] [] [] []]; reflexivity. Qed.

Lemma read_hex_hexlify (data : string) : read_hex (hexlify data) = data.
Proof.
  induction data as [|c rest IH]; [reflexivity|].
  cbn [hexlify read_hex]. rewrite hexlify_byte_read_back, IH. reflexivity.
Qed.

Lemma hexlify_app (a b : string) : hexlify (a +:+ b) = hexlify a +:+ hexlify b.
Proof.
  induction a as [|c rest IH]; [reflexivity|].
  simpl. rewrite IH. reflexivity.
Qed.

(** X1. [hexlify] writes two characters per byte, each one of
    [0123456789abcdef], and the hexadecimal form of a concatenation is the
    concatenation of the hexadecimal forms. *)
Theorem hexlify_shape (a b : string) :
  String.length (hexlify a) = 2 * String.length a
  /\ all_hex_digits (hexlify a) = true
  /\ hexlify (a +:+ b) = hexlify a +:+ hexlify b.
Proof.
  split; [apply hexlify_length|]. split; [|apply hexlify_app].
  induction a as [|c rest IH]; [reflexivity|].
  cbn [hexlify all_hex_digits].
  destruct (hexlify_byte_digits c) as [-> ->]. exact IH.
Qed.

(** X2. [hexlify] loses nothing: reading the digits back pair by pair gives
    the bytes, so two byte strings with the same hexadecimal form are the
    same byte string. *)
Theorem hexlify_injective (a b : string) :
  read_hex (hexlify a) = a /\ (hexlify a = hexlify b -> a = b).
Proof.
  split; [apply read_hex_hexlify|].
  intros H. rewrite <- (read_hex_hexlify a), <- (read_hex_hexlify b), H. reflexivity.
Qed.

Lemma hexlify_all_hex_digits (data : string) : all_hex_digits (hexlify data) = true.
Proof.
  induction data as [|c rest IH]; [reflexivity|].
  cbn [hexlify all_hex_digits].
  destruct (hexlify_byte_digits c) as [-> ->]. exact IH.
Qed.

End Hexlify.

(* ===================================================================== *)
(** ** What subscribe allocates and answers                               *)
(* ===================================================================== *)

Section Subscribe.
Variable I : Interfaces.

(** C7, as amended. Every [subscribe] call asks the Extranonce Allocator
    for a new extranonce1 (one allocator call per [subscribe]), stores it in
    the session and sets the session's difficulty to [POOL_TARGET], before
    it calls [Pubsub.subscribe] and whatever that call does.  When
    [Pubsub.subscribe] returns the subscription details, [subscribe]
    returns them followed by the extranonce1 in hexadecimal (two characters
    of [0123456789abcdef] per byte, which read back to the allocated bytes)
    and the pool's extranonce2 size; when it raises, the exception is the
    outcome.  A second [subscribe] on the same connection allocates again:
    the allocator has then been called twice and the session holds the
    later value, whether the second call returns or raises. *)
Theorem subscribe_allocates_each_call (args args' : list PyVal) (w : World) :
  let first := get_new_extranonce1 I (allocated w) in
  let second := get_new_extranonce1 I (S (allocated w)) in
  let w1 := snd (subscribe I args w) in
  let w2 := snd (subscribe I args' w1) in
  calls w1 = calls w ++ [GetNewExtranonce1; PubsubSubscribe]
  /\ allocated w1 = S (allocated w)
  /\ extranonce1 (session w1) = Some (PyStr first)
  /\ difficulty (session w1) = Some (POOL_TARGET I)
  /\ authorized (session w1) = authorized (session w)
  /\ (forall details,
        pubsub_subscribe I (calls w ++ [GetNewExtranonce1]) = Return details ->
        fst (subscribe I args w) =
          Return (details ++ [Plain (PyStr (hexlify first)); Plain (extranonce2_size I)]))
  /\ (forall e,
        pubsub_subscribe I (calls w ++ [GetNewExtranonce1]) = Raise e ->
        fst (subscribe I args w) = Raise e)
  /\ String.length (hexlify first) = 2 * String.length first
  /\ all_hex_digits (hexlify first) = true
  /\ read_hex (hexlify first) = first
  /\ calls w2 = calls w ++ [GetNewExtranonce1; PubsubSubscribe;
                            GetNewExtranonce1; PubsubSubscribe]
  /\ allocated w2 = S (S (allocated w))
  /\ extranonce1 (session w2) = Some (PyStr second)
  /\ difficulty (session w2) = Some (POOL_TARGET I)
  /\ (forall details,
        pubsub_subscribe I (calls w1 ++ [GetNewExtranonce1]) = Return details ->
        fst (subscribe I args' w1) =
          Return (details ++ [Plain (PyStr (hexlify second)); Plain (extranonce2_size I)]))
  /\ (forall e,
        pubsub_subscribe I (calls w1 ++ [GetNewExtranonce1]) = Raise e ->
        fst (subscribe I args' w1) = Raise e).
Proof.
  cbv zeta. rewrite (subscribe_run I args w). cbv zeta. cbn [fst snd].
  rewrite (subscribe_run I args'). cbv zeta. cbn [fst snd session allocated calls
    extranonce1 difficulty authorized].
  repeat (split; [reflexivity|]).
  split; [intros details ->; reflexivity|].
  split; [intros e ->; reflexivity|].
  split; [apply hexlify_length|].
  split; [apply hexlify_all_hex_digits|].
  split; [apply read_hex_hexlify|].
  split; [rewrite <- app_assoc; reflexivity|].
  repeat (split; [reflexivity|]).
  split; [intros details ->; reflexivity|].
  intros e ->; reflexivity.
Qed.

End Subscribe.

Lemma hexlify_injective_witness :
  hexlify (Example.allocator 3) = hexlify (Example.allocator 3)
  /\ Example.allocator 3 = Example.allocator 3.
Proof.
  split; [reflexivity|].
  apply (proj2 (hexlify_injective (Example.allocator 3) (Example.allocator 3))).
  reflexivity.
Defined.

(* ===================================================================== *)
(** ** Edges of the submission pipeline                                   *)
(* ===================================================================== *)

Section SubmitEdges.
Variable I : Interfaces.
Variables (worker_name : string) (job_id extranonce2 ntime nonce : PyVal).

(** X3. A stored credential that the authenticator no longer accepts ends
    [submit] at the authorization check, for a worker with an entry as for
    one without: [SubmitException("Worker is not authorized")] is raised and
    the authenticator call is the only collaborator call. *)
Theorem submit_stale_credential_rejected (w : World) :
  worker_manager_authorize I worker_name (stored_credential (session w) worker_name)
    = false ->
  submit I worker_name job_id extranonce2 ntime nonce w =
    (Raise (SubmitException "Worker is not authorized"),
     {| session := defaulted (session w);
        allocated := allocated w;
        calls := calls w ++
                 [Authorize worker_name (stored_credential (session w) worker_name)] |}).
Proof.
  intros Hrej. rewrite submit_paths, submit_with_paths. cbv zeta.
  rewrite Hrej. reflexivity.
Qed.

(** X4. The subscription check fails on every [extranonce1] that is false
    in a boolean context ([None], [False], [0], the empty string), not only
    on a missing key: an authorized worker gets
    [SubmitException("Connection is not subscribed for mining")] and
    nothing is called after the authenticator. *)
Theorem submit_falsy_extranonce1 (w : World) (v : PyVal) :
  worker_manager_authorize I worker_name (stored_credential (session w) worker_name) = true ->
  extranonce1 (session w) = Some v ->
  truthy v = false ->
  submit I worker_name job_id extranonce2 ntime nonce w =
    (Raise (SubmitException "Connection is not subscribed for mining"),
     {| session := defaulted (session w);
        allocated := allocated w;
        calls := calls w ++
                 [Authorize worker_name (stored_credential (session w) worker_name)] |}).
Proof.
  intros Hauth He1 Hfalsy. rewrite submit_paths, submit_with_paths. cbv zeta.
  rewrite Hauth, He1. simpl. rewrite Hfalsy. reflexivity.
Qed.

(** X5. A session that has an [extranonce1] and no [difficulty] key makes
    [submit] raise [KeyError('difficulty')] on line 90, after the
    authorization check and before the clock is read: no rate bookkeeping,
    no validation, no recording. *)
Theorem submit_missing_difficulty (w : World) (e1 : PyVal) :
  worker_manager_authorize I worker_name (stored_credential (session w) worker_name) = true ->
  extranonce1 (session w) = Some e1 ->
  truthy e1 = true ->
  difficulty (session w) = None ->
  submit I worker_name job_id extranonce2 ntime nonce w =
    (Raise (KeyError "difficulty"),
     {| session := defaulted (session w);
        allocated := allocated w;
        calls := calls w ++
                 [Authorize worker_name (stored_credential (session w) worker_name)] |}).
Proof.
  intros Hauth He1 Htruthy Hd. rewrite submit_paths, submit_with_paths. cbv zeta.
  rewrite Hauth, He1, Hd. simpl. rewrite Htruthy. reflexivity.
Qed.

(** X6. An exception of the validator that is not a [SubmitException] is
    not caught: it reaches the caller as it is, and the share is not
    recorded with the Outcome Recorder; the validator call is the last
    call. *)
Theorem submit_other_exception_not_recorded (w : World) (e1 d : PyVal) (e : exn) :
  worker_manager_authorize I worker_name (stored_credential (session w) worker_name) = true ->
  extranonce1 (session w) = Some e1 ->
  truthy e1 = true ->
  difficulty (session w) = Some d ->
  submit_share I job_id worker_name
    (session_at_validation I (session w) job_id d (timestamper_time I) worker_name)
    e1 extranonce2 ntime nonce d = Raise e ->
  not_SubmitException e = true ->
  submit I worker_name job_id extranonce2 ntime nonce w =
    (Raise e,
     {| session :=
          session_at_validation I (session w) job_id d (timestamper_time I) worker_name;
        allocated := allocated w;
        calls :=
          calls w ++
          calls_up_to_validation I (session w) worker_name job_id extranonce2 ntime nonce
            e1 d |}).
Proof.
  intros Hauth He1 Htruthy Hd Hval Hother.
  rewrite submit_paths, submit_with_paths. cbv zeta.
  rewrite Hauth, He1, Hd. simpl. rewrite Htruthy. simpl.
  unfold world_at_validation at 1. simpl. rewrite Hval.
  destruct e; try reflexivity. discriminate.
Qed.

(** The session a [submit] leaves: the one after [setdefault], or the one
    the validator was handed. *)
Lemma submit_with_session (h : if_header) (w : World) :
  let w' := snd (submit_with I h worker_name job_id extranonce2 ntime nonce w) in
  allocated w' = allocated w
  /\ (session w' = defaulted (session w)
      \/ exists d,
           difficulty (session w) = Some d
           /\ session w' =
                session_at_validation I (session w) job_id d (timestamper_time I)
                  worker_name).
Proof.
  cbv zeta. rewrite submit_with_paths. cbv zeta.
  destruct (worker_manager_authorize I worker_name _); simpl; [|split; [|left]; reflexivity].
  destruct (truthy _); simpl; [|split; [|left]; reflexivity].
  destruct (difficulty (session w)) as [d|] eqn:Hd; simpl; [|split; [|left]; reflexivity].
  destruct (submit_share _ _ _ _ _ _ _ _ _) as [r|[msg|k|x| |x]]; simpl;
    try (split; [reflexivity|right; exists d; split; reflexivity]).
  destruct (header_test _ _) as [test|e]; simpl;
    [|split; [reflexivity|right; exists d; split; reflexivity]].
  destruct (py_ne _ _); simpl; (split; [reflexivity|right; exists d; split; reflexivity]).
Qed.

(** X7. Whatever its outcome, [submit] grants and revokes nothing and
    allocates nothing: the entries of the [authorized] map (an absent map
    becomes the empty one), the session's [extranonce1] and the allocator
    are as before.  The only key that can change is [difficulty], and only
    to the value the share limiter set during this call. *)
Theorem submit_keeps_session (w : World) :
  let w' := snd (submit I worker_name job_id extranonce2 ntime nonce w) in
  authorized (session w') = Some (default ∅ (authorized (session w)))
  /\ extranonce1 (session w') = extranonce1 (session w)
  /\ allocated w' = allocated w
  /\ (difficulty (session w') = difficulty (session w)
      \/ exists d d',
           difficulty (session w) = Some d
           /\ share_limiter_submit I job_id d (timestamper_time I) worker_name = Some d'
           /\ difficulty (session w') = Some d').
Proof.
  cbv zeta. rewrite submit_paths.
  destruct (submit_with_session line_109 w) as [Halloc [Hs|[d [Hd Hs]]]];
    rewrite Hs; simpl.
  - repeat split; try assumption. left. reflexivity.
  - repeat split; try assumption.
    destruct (share_limiter_submit I job_id d (timestamper_time I) worker_name) as [d'|]
      eqn:Hlim.
    + right. exists d, d'. repeat split; assumption.
    + left. reflexivity.
Qed.

(** X8. The collaborator calls of one [submit] come in one order, whatever
    line 109 is read as: the authorization check alone, or the
    authorization check, the clock, the IP, the rate bookkeeping and the
    validation, followed by nothing, by the record of a refusal, by the
    record of an acceptance, or by the record of an acceptance and the
    block continuation.  The Outcome Recorder is therefore called at most
    once and never before the validator. *)
Theorem submit_call_order (h : if_header) (w : World) :
  let w' := snd (submit_with I h worker_name job_id extranonce2 ntime nonce w) in
  let check := Authorize worker_name (stored_credential (session w) worker_name) in
  calls w' = calls w ++ [check]
  \/ exists e1 d tail,
       calls w' =
         calls w ++
         calls_up_to_validation I (session w) worker_name job_id extranonce2 ntime nonce
           e1 d ++ tail
       /\ extranonce1 (session w) = Some e1
       /\ difficulty (session w) = Some d
       /\ (tail = []
           \/ (exists msg, tail = [refused_share I worker_name d msg])
           \/ (exists r credited,
                 tail = [accepted_share I worker_name r credited]
                 \/ tail = [accepted_share I worker_name r credited;
                            block_continuation I worker_name r])).
Proof.
  cbv zeta. rewrite submit_with_paths. cbv zeta.
  destruct (worker_manager_authorize I worker_name _); simpl; [|left; reflexivity].
  destruct (extranonce1 (session w)) as [e1|] eqn:He1; simpl; [|left; reflexivity].
  destruct (truthy e1); simpl; [|left; reflexivity].
  destruct (difficulty (session w)) as [d|] eqn:Hd; simpl; [|left; reflexivity].
  right. exists e1, d.
  destruct (submit_share _ _ _ _ _ _ _ _ _) as [r|[msg|k|x| |x]]; simpl;
    try (exists []; rewrite <- ?app_assoc; simpl; repeat split; left; reflexivity).
  - destruct (header_test _ _) as [test|e]; simpl;
      [|exists []; rewrite <- ?app_assoc; simpl; repeat split; left; reflexivity].
    destruct (py_ne _ _); simpl.
    + eexists. rewrite <- ?app_assoc; simpl. split; [reflexivity|].
      split; [reflexivity|]. split; [reflexivity|].
      right. right. eexists _, _. right. reflexivity.
    + eexists. rewrite <- ?app_assoc; simpl. split; [reflexivity|].
      split; [reflexivity|]. split; [reflexivity|].
      right. right. eexists _, _. left. reflexivity.
  - eexists. rewrite <- ?app_assoc; simpl. split; [reflexivity|].
    split; [reflexivity|]. split; [reflexivity|].
    right. left. eexists. reflexivity.
Qed.

(** X9. As the source has line 109, no call of [submit] returns a value:
    every call ends in an exception.  Among the collaborator calls it makes
    there is no [on_submit_share] with a true [is_valid] argument, whatever
    the other arguments, and no [addCallback]: the Outcome Recorder is
    never told of an accepted share and no block continuation is ever
    registered. *)
Theorem submit_never_returns (w : World) :
  let result := submit I worker_name job_id extranonce2 ntime nonce w in
  let made := skipn (length (calls w)) (calls (snd result)) in
  (exists e, fst result = Raise e)
  /\ existsb reports_accepted made = false
  /\ existsb is_AddCallback made = false.
Proof.
  cbv zeta. rewrite submit_paths, submit_with_paths. cbv zeta.
  destruct (worker_manager_authorize I worker_name _); simpl;
    [|rewrite skipn_app, skipn_all, Nat.sub_diag; simpl;
      split; [eexists; reflexivity|split; reflexivity]].
  destruct (truthy _); simpl;
    [|rewrite skipn_app, skipn_all, Nat.sub_diag; simpl;
      split; [eexists; reflexivity|split; reflexivity]].
  destruct (difficulty (session w)) as [d|]; simpl;
    [|rewrite skipn_app, skipn_all, Nat.sub_diag; simpl;
      split; [eexists; reflexivity|split; reflexivity]].
  destruct (submit_share _ _ _ _ _ _ _ _ _) as [r|[msg|k|x| |x]]; simpl;
    rewrite <- ?app_assoc, skipn_app, skipn_all, Nat.sub_diag; simpl;
    (split; [eexists; reflexivity|split; reflexivity]).
Qed.

End SubmitEdges.

(* ===================================================================== *)
(** ** Calls in sequence                                                  *)
(* ===================================================================== *)

Section Sequences.
Variable I : Interfaces.

(** X10. A second [authorize] for a worker overrides the first: the
    session after [authorize(name, p1)] followed by [authorize(name, p2)]
    is the session after [authorize(name, p2)] alone, whatever the
    authenticator said to either. *)
Theorem authorize_overrides (worker_name : string) (p1 p2 : PyVal) (w : World) :
  session (snd (authorize I worker_name p2 (snd (authorize I worker_name p1 w)))) =
  session (snd (authorize I worker_name p2 w)).
Proof.
  rewrite (authorize_run I worker_name p1 w). cbv zeta.
  destruct (worker_manager_authorize I worker_name p1); simpl;
    rewrite !authorize_run; cbv zeta; simpl;
    destruct (worker_manager_authorize I worker_name p2); simpl;
    unfold with_authorized; simpl.
  - now rewrite insert_insert_eq.
  - now rewrite delete_insert_eq.
  - now rewrite insert_delete_eq.
  - now rewrite delete_delete_eq.
Qed.

(** X11. An accepted [authorize] is what the next [submit] of that worker
    presents: the authenticator is asked about the same password again, the
    authorization check passes, and on a connection that has not subscribed
    the submission fails with
    [SubmitException("Connection is not subscribed for mining")]. *)
Theorem authorize_then_submit (worker_name : string) (password : PyVal)
    (job_id extranonce2 ntime nonce : PyVal) (w : World) :
  worker_manager_authorize I worker_name password = true ->
  extranonce1 (session w) = None ->
  let w1 := snd (authorize I worker_name password w) in
  submit I worker_name job_id extranonce2 ntime nonce w1 =
    (Raise (SubmitException "Connection is not subscribed for mining"),
     {| session := session w1;
        allocated := allocated w;
        calls := calls w ++ [Authorize worker_name password;
                             Authorize worker_name password] |}).
Proof.
  intros Hacc He1. cbv zeta.
  rewrite authorize_run. cbv zeta. rewrite Hacc. simpl.
  rewrite submit_paths, submit_with_paths. cbv zeta.
  unfold stored_credential, world_at_authorization, stored_credential, dict_get. simpl.
  rewrite (lookup_insert_eq (default ∅ (authorized (session w))) worker_name password).
  simpl. rewrite Hacc, He1. simpl.
  unfold logged, with_session, defaulted. simpl.
  rewrite <- app_assoc. reflexivity.
Qed.

(** X12. A rejected [authorize] revokes: whatever was stored for the worker
    before, the next [submit] presents [None], and with an authenticator
    that rejects [(worker_name, None)] it is refused at the authorization
    check. *)
Theorem rejected_authorize_then_submit (worker_name : string) (password : PyVal)
    (job_id extranonce2 ntime nonce : PyVal) (w : World) :
  worker_manager_authorize I worker_name password = false ->
  worker_manager_authorize I worker_name PyNone = false ->
  let w1 := snd (authorize I worker_name password w) in
  submit I worker_name job_id extranonce2 ntime nonce w1 =
    (Raise (SubmitException "Worker is not authorized"),
     {| session := session w1;
        allocated := allocated w;
        calls := calls w ++ [Authorize worker_name password;
                             Authorize worker_name PyNone] |}).
Proof.
  intros Hrej Hnone. cbv zeta.
  rewrite authorize_run. cbv zeta. rewrite Hrej. simpl.
  rewrite submit_paths, submit_with_paths. cbv zeta.
  unfold stored_credential, world_at_authorization, stored_credential, dict_get. simpl.
  rewrite (lookup_delete_eq (default ∅ (authorized (session w))) worker_name).
  simpl. rewrite Hnone. simpl.
  unfold logged, with_session, defaulted. simpl.
  rewrite <- app_assoc. reflexivity.
Qed.

(** X13. A [submit] right after [subscribe] is checked against what
    [subscribe] installed: for a worker who passes the authorization check,
    and an allocator value that is not empty, the rate bookkeeping and the
    validator are called with the newly allocated extranonce1 and with
    [POOL_TARGET] as the difficulty, whatever the session's difficulty was
    before the [subscribe]. *)
Theorem subscribe_then_submit (args : list PyVal) (worker_name : string)
    (job_id extranonce2 ntime nonce : PyVal) (w : World) :
  worker_manager_authorize I worker_name (stored_credential (session w) worker_name) = true ->
  get_new_extranonce1 I (allocated w) <> "" ->
  let w1 := snd (subscribe I args w) in
  exists tail,
    calls (snd (submit I worker_name job_id extranonce2 ntime nonce w1)) =
      calls w ++ [GetNewExtranonce1; PubsubSubscribe] ++
      calls_up_to_validation I (session w1) worker_name job_id extranonce2 ntime nonce
        (PyStr (get_new_extranonce1 I (allocated w))) (POOL_TARGET I) ++ tail.
Proof.
  intros Hauth Hne. cbv zeta. rewrite subscribe_run. cbv zeta. simpl.
  rewrite submit_paths, submit_with_paths. cbv zeta.
  unfold stored_credential in *. simpl. rewrite Hauth. simpl.
  assert (Htruthy : String.eqb (get_new_extranonce1 I (allocated w)) "" = false)
    by (now apply String.eqb_neq).
  rewrite Htruthy. simpl.
  destruct (submit_share _ _ _ _ _ _ _ _ _) as [r|[msg|k|x| |x]]; simpl;
    rewrite <- ?app_assoc; simpl; eexists; reflexivity.
Qed.

End Sequences.

(* ===================================================================== *)
(** ** Invariants of a connection                                         *)
(* ===================================================================== *)

Section Connection.
Variable I : Interfaces.

Lemma serve_all_cons (rq : Request) (rqs : list Request) (w : World) :
  serve_all I (rq :: rqs) w = serve_all I rqs (serve I rq w).
Proof. reflexivity. Qed.

Lemma add_litecoind_world (args : list PyVal) (w : World) :
  session (snd (add_litecoind args w)) = session w
  /\ allocated (snd (add_litecoind args w)) = allocated w.
Proof. unfold add_litecoind. destruct (negb _); split; reflexivity. Qed.

(** What one request does to the allocator and to [extranonce1]: only
    [subscribe] touches them. *)
Lemma serve_extranonce1 (rq : Request) (w : World) :
  allocated (serve I rq w) = (if is_subscribe rq then S (allocated w) else allocated w)
  /\ extranonce1 (session (serve I rq w)) =
       (if is_subscribe rq
        then Some (PyStr (get_new_extranonce1 I (allocated w)))
        else extranonce1 (session w)).
Proof.
  destruct rq as [|args|name password|args|name job_id extranonce2 ntime nonce];
    unfold serve; cbn [is_subscribe].
  - split; reflexivity.
  - destruct (add_litecoind_world args w) as [-> ->]. split; reflexivity.
  - rewrite authorize_run. cbv zeta.
    destruct (worker_manager_authorize I name password); split; reflexivity.
  - rewrite subscribe_run. split; reflexivity.
  - rewrite submit_paths.
    destruct (submit_with_session I name job_id extranonce2 ntime nonce line_109 w)
      as [Halloc [Hs|[d [Hd Hs]]]]; rewrite Hs; split; try assumption; reflexivity.
Qed.

(** X14. On a connection, the allocator is called once per [subscribe]
    request and by nothing else, and the session's [extranonce1] is the most
    recent allocation: after a run with [k+1] subscribes it is the value
    allocated by the last of them, after a run with none it is what it was.
    Authorizations, submissions and admin calls in between change
    neither. *)
Theorem connection_holds_latest_extranonce1 (rqs : list Request) (w : World) :
  let w' := serve_all I rqs w in
  allocated w' = allocated w + subscribes rqs
  /\ extranonce1 (session w') =
       match subscribes rqs with
       | 0 => extranonce1 (session w)
       | S k => Some (PyStr (get_new_extranonce1 I (allocated w + k)))
       end.
Proof.
  cbv zeta. revert w. induction rqs as [|rq rqs IH]; intros w.
  - unfold subscribes. simpl. rewrite Nat.add_0_r. split; reflexivity.
  - rewrite serve_all_cons. destruct (IH (serve I rq w)) as [Ha He].
    destruct (serve_extranonce1 rq w) as [Ha1 He1].
    rewrite Ha, He, Ha1, He1. unfold subscribes. simpl.
    destruct (is_subscribe rq); simpl.
    + split; [lia|].
      destruct (length (List.filter is_subscribe rqs)) as [|k]; simpl.
      * rewrite Nat.add_0_r. reflexivity.
      * replace (S (allocated w + k)) with (allocated w + S k) by lia. reflexivity.
    + split; reflexivity.
Qed.

(** One request keeps "a session with an extranonce1 has a difficulty". *)
Lemma serve_keeps_difficulty (rq : Request) (w : World) :
  subscribed_with_difficulty (session w) ->
  subscribed_with_difficulty (session (serve I rq w)).
Proof.
  unfold subscribed_with_difficulty. intros Hinv.
  destruct rq as [|args|name password|args|name job_id extranonce2 ntime nonce];
    unfold serve; cbn [is_subscribe].
  - exact Hinv.
  - destruct (add_litecoind_world args w) as [-> _]. exact Hinv.
  - rewrite authorize_run. cbv zeta.
    destruct (worker_manager_authorize I name password); exact Hinv.
  - rewrite subscribe_run. simpl. intros _. eexists. reflexivity.
  - rewrite submit_paths.
    destruct (submit_with_session I name job_id extranonce2 ntime nonce line_109 w)
      as [_ [Hs|[d [Hd Hs]]]]; rewrite Hs; simpl.
    + exact Hinv.
    + intros _. destruct (share_limiter_submit I job_id d _ name); [|rewrite Hd];
        eexists; reflexivity.
Qed.

(** One request keeps "every stored credential is an accepted one". *)
Lemma serve_keeps_credentials (rq : Request) (w : World) :
  credentials_accepted I (session w) ->
  credentials_accepted I (session (serve I rq w)).
Proof.
  unfold credentials_accepted. intros Hinv.
  destruct rq as [|args|name password|args|name job_id extranonce2 ntime nonce];
    unfold serve; cbn [is_subscribe].
  - exact Hinv.
  - destruct (add_litecoind_world args w) as [-> _]. exact Hinv.
  - rewrite authorize_run. cbv zeta.
    destruct (worker_manager_authorize I name password) eqn:Hacc; simpl;
      intros other pw Hlook.
    + destruct (decide (name = other)) as [<-|Hne].
      * rewrite (lookup_insert_eq (default ∅ (authorized (session w))) name password)
          in Hlook.
        injection Hlook as <-. exact Hacc.
      * rewrite lookup_insert_ne in Hlook by exact Hne. now apply Hinv.
    + destruct (decide (name = other)) as [<-|Hne].
      * rewrite (lookup_delete_eq (default ∅ (authorized (session w))) name) in Hlook.
        discriminate.
      * rewrite lookup_delete_ne in Hlook by exact Hne. now apply Hinv.
  - rewrite subscribe_run. simpl. exact Hinv.
  - rewrite submit_paths.
    destruct (submit_with_session I name job_id extranonce2 ntime nonce line_109 w)
      as [_ [Hs|[d [Hd Hs]]]]; rewrite Hs; simpl; exact Hinv.
Qed.

(** X15. Served from an empty session dictionary, a connection never has
    an [extranonce1] without a [difficulty]: [subscribe] writes both, and
    no handler removes either.  The [KeyError] of line 90 therefore needs a
    session that something other than these handlers has written. *)
Theorem connection_subscribed_has_difficulty (rqs : list Request) (n : nat) (l : list Call) :
  let s := session (serve_all I rqs (fresh_connection n l)) in
  is_Some (extranonce1 s) -> is_Some (difficulty s).
Proof.
  cbv zeta.
  assert (Hgen : forall w, subscribed_with_difficulty (session w) ->
                           subscribed_with_difficulty (session (serve_all I rqs w))).
  { induction rqs as [|rq rqs IH]; intros w Hw; [exact Hw|].
    rewrite serve_all_cons. apply IH. now apply serve_keeps_difficulty. }
  apply Hgen. intros [x Hx]. discriminate.
Qed.

(** X16. Served from an empty session dictionary, the [authorized] map of
    a connection only ever holds credentials the authenticator accepts:
    entries are written by an accepted [authorize] and by nothing else.  So
    the authorization check of [submit] passes for every worker that has an
    entry. *)
Theorem connection_credentials_accepted (rqs : list Request) (n : nat) (l : list Call)
    (worker_name : string) (password : PyVal) :
  let s := session (serve_all I rqs (fresh_connection n l)) in
  default ∅ (authorized s) !! worker_name = Some password ->
  worker_manager_authorize I worker_name password = true
  /\ worker_manager_authorize I worker_name (stored_credential s worker_name) = true.
Proof.
  cbv zeta.
  assert (Hgen : forall w, credentials_accepted I (session w) ->
                           credentials_accepted I (session (serve_all I rqs w))).
  { induction rqs as [|rq rqs IH]; intros w Hw; [exact Hw|].
    rewrite serve_all_cons. apply IH. now apply serve_keeps_credentials. }
  intros Hlook.
  assert (Hacc : worker_manager_authorize I worker_name password = true).
  { apply (Hgen (fresh_connection n l)); [|exact Hlook].
    intros other pw H. simpl in H. rewrite lookup_empty in H. discriminate. }
  split; [exact Hacc|].
  unfold stored_credential, dict_get. rewrite Hlook. exact Hacc.
Qed.

(** X17. Without a [subscribe] among its requests, a connection is never
    subscribed: whatever was authorized and submitted, a further [submit] of
    a worker who passes the authorization check fails with
    [SubmitException("Connection is not subscribed for mining")]. *)
Theorem connection_without_subscribe (rqs : list Request) (n : nat) (l : list Call)
    (worker_name : string) (job_id extranonce2 ntime nonce : PyVal) :
  let w := serve_all I rqs (fresh_connection n l) in
  subscribes rqs = 0 ->
  worker_manager_authorize I worker_name (stored_credential (session w) worker_name) = true ->
  fst (submit I worker_name job_id extranonce2 ntime nonce w) =
    Raise (SubmitException "Connection is not subscribed for mining").
Proof.
  cbv zeta.
  assert (Hgen : forall w0, subscribes rqs = 0 ->
            extranonce1 (session (serve_all I rqs w0)) = extranonce1 (session w0)).
  { induction rqs as [|rq rqs IH]; intros w0 H0; [reflexivity|].
    rewrite serve_all_cons. unfold subscribes in *. simpl in H0.
    destruct (is_subscribe rq) eqn:Hrq; [discriminate|].
    rewrite IH by exact H0.
    destruct (serve_extranonce1 rq w0) as [_ ->]. rewrite Hrq. reflexivity. }
  intros Hnone Hauth.
  rewrite submit_paths, submit_with_paths. cbv zeta.
  rewrite Hauth, (Hgen _ Hnone). reflexivity.
Qed.

End Connection.

(* ===================================================================== *)
(** ** The hexadecimal form two subscribers are given                     *)
(* ===================================================================== *)

Section DistinctHex.
Variable I : Interfaces.

(** X18. Two [subscribe] calls that [Pubsub.subscribe] accepts and that are
    allocated different extranonce1 values answer with different
    [extranonce1_hex] strings, and each string reads back to the bytes that
    were allocated to its caller. *)
Theorem subscribe_distinct_hex (args1 args2 : list PyVal) (w1 w2 : World)
    (details1 details2 : list Item) :
  pubsub_subscribe I (calls w1 ++ [GetNewExtranonce1]) = Return details1 ->
  pubsub_subscribe I (calls w2 ++ [GetNewExtranonce1]) = Return details2 ->
  get_new_extranonce1 I (allocated w1) <> get_new_extranonce1 I (allocated w2) ->
  exists hex1 hex2,
    fst (subscribe I args1 w1) =
      Return (details1 ++ [Plain (PyStr hex1); Plain (extranonce2_size I)])
    /\ fst (subscribe I args2 w2) =
         Return (details2 ++ [Plain (PyStr hex2); Plain (extranonce2_size I)])
    /\ hex1 <> hex2
    /\ read_hex hex1 = get_new_extranonce1 I (allocated w1)
    /\ read_hex hex2 = get_new_extranonce1 I (allocated w2).
Proof.
  intros H1 H2 Hne.
  exists (hexlify (get_new_extranonce1 I (allocated w1))),
         (hexlify (get_new_extranonce1 I (allocated w2))).
  rewrite (subscribe_run I args1 w1), (subscribe_run I args2 w2). cbv zeta.
  rewrite H1, H2. cbn [fst subscribe_answer].
  split; [reflexivity|]. split; [reflexivity|].
  split; [|split; apply read_hex_hexlify].
  intros Heq. apply Hne.
  rewrite <- (read_hex_hexlify (get_new_extranonce1 I (allocated w1))),
          <- (read_hex_hexlify (get_new_extranonce1 I (allocated w2))), Heq.
  reflexivity.
Qed.

End DistinctHex.

(* ===================================================================== *)
(** ** The further properties on concrete sessions                        *)
(* ===================================================================== *)

Section MoreInstances.
Import Example Scenarios.

(** [alice] holds a password the database rejects. *)
Lemma submit_stale_credential_witness :
  let I := pool password_db in
  let w := world_of stale_session in
  worker_manager_authorize I alice (stored_credential (session w) alice) = false
  /\ submit I alice (PyStr "job_new") extranonce2 ntime nonce w =
       (Raise (SubmitException "Worker is not authorized"),
        {| session := defaulted (session w);
           allocated := allocated w;
           calls := calls w ++ [Authorize alice (stored_credential (session w) alice)] |}).
Proof.
  intros I w. split; [reflexivity|].
  apply (submit_stale_credential_rejected I alice (PyStr "job_new") extranonce2 ntime
           nonce w). reflexivity.
Defined.

(** The [extranonce1] key is there and holds [None]. *)
Lemma submit_falsy_extranonce1_witness :
  let I := pool password_db in
  let w := world_of none_extranonce_session in
  (worker_manager_authorize I alice (stored_credential (session w) alice) = true
   /\ extranonce1 (session w) = Some PyNone
   /\ truthy PyNone = false)
  /\ submit I alice (PyStr "job_new") extranonce2 ntime nonce w =
       (Raise (SubmitException "Connection is not subscribed for mining"),
        {| session := defaulted (session w);
           allocated := allocated w;
           calls := calls w ++ [Authorize alice (stored_credential (session w) alice)] |}).
Proof.
  intros I w. split; [repeat split|].
  apply (submit_falsy_extranonce1 I alice (PyStr "job_new") extranonce2 ntime nonce w
           PyNone); reflexivity.
Defined.

Lemma submit_missing_difficulty_witness :
  let I := pool password_db in
  let w := world_of no_difficulty_session in
  (worker_manager_authorize I alice (stored_credential (session w) alice) = true
   /\ extranonce1 (session w) = Some (PyStr (allocator 0))
   /\ truthy (PyStr (allocator 0)) = true
   /\ difficulty (session w) = None)
  /\ submit I alice (PyStr "job_new") extranonce2 ntime nonce w =
       (Raise (KeyError "difficulty"),
        {| session := defaulted (session w);
           allocated := allocated w;
           calls := calls w ++ [Authorize alice (stored_credential (session w) alice)] |}).
Proof.
  intros I w. split; [repeat split|].
  apply (submit_missing_difficulty I alice (PyStr "job_new") extranonce2 ntime nonce w
           (PyStr (allocator 0))); reflexivity.
Defined.

(** The validator fails with a [TypeError] of its own. *)
Lemma submit_other_exception_witness :
  let I := crashing_pool in
  let w := world_of alice_session in
  (worker_manager_authorize I alice (stored_credential (session w) alice) = true
   /\ extranonce1 (session w) = Some (PyStr (allocator 0))
   /\ truthy (PyStr (allocator 0)) = true
   /\ difficulty (session w) = Some (PyInt 16)
   /\ submit_share I (PyStr "job_new") alice
        (session_at_validation I (session w) (PyStr "job_new") (PyInt 16)
           (timestamper_time I) alice)
        (PyStr (allocator 0)) extranonce2 ntime nonce (PyInt 16) =
      Raise (OtherError "TypeError")
   /\ not_SubmitException (OtherError "TypeError") = true)
  /\ submit I alice (PyStr "job_new") extranonce2 ntime nonce w =
       (Raise (OtherError "TypeError"),
        {| session :=
             session_at_validation I (session w) (PyStr "job_new") (PyInt 16)
               (timestamper_time I) alice;
           allocated := allocated w;
           calls :=
             calls w ++
             calls_up_to_validation I (session w) alice (PyStr "job_new") extranonce2 ntime
               nonce (PyStr (allocator 0)) (PyInt 16) |}).
Proof.
  intros I w. split; [repeat split|].
  apply (submit_other_exception_not_recorded I alice (PyStr "job_new") extranonce2 ntime
           nonce w (PyStr (allocator 0)) (PyInt 16) (OtherError "TypeError"));
    reflexivity.
Defined.

(** [alice] authorizes on a connection nobody has used, then submits. *)
Lemma authorize_then_submit_witness :
  let I := pool password_db in
  let w := fresh_connection 0 [] in
  let w1 := snd (authorize I alice (PyStr "hunter2") w) in
  (worker_manager_authorize I alice (PyStr "hunter2") = true
   /\ extranonce1 (session w) = None)
  /\ submit I alice (PyStr "job_new") extranonce2 ntime nonce w1 =
       (Raise (SubmitException "Connection is not subscribed for mining"),
        {| session := session w1;
           allocated := allocated w;
           calls := calls w ++ [Authorize alice (PyStr "hunter2");
                                Authorize alice (PyStr "hunter2")] |}).
Proof.
  intros I w w1. split; [split; reflexivity|].
  apply (authorize_then_submit I alice (PyStr "hunter2") (PyStr "job_new") extranonce2
           ntime nonce w); reflexivity.
Defined.

(** [alice], authorized and subscribed, tries a wrong password, then
    submits. *)
Lemma rejected_authorize_then_submit_witness :
  let I := pool password_db in
  let w := world_of alice_session in
  let w1 := snd (authorize I alice (PyStr "guess") w) in
  (worker_manager_authorize I alice (PyStr "guess") = false
   /\ worker_manager_authorize I alice PyNone = false)
  /\ submit I alice (PyStr "job_new") extranonce2 ntime nonce w1 =
       (Raise (SubmitException "Worker is not authorized"),
        {| session := session w1;
           allocated := allocated w;
           calls := calls w ++ [Authorize alice (PyStr "guess"); Authorize alice PyNone] |}).
Proof.
  intros I w w1. split; [split; reflexivity|].
  apply (rejected_authorize_then_submit I alice (PyStr "guess") (PyStr "job_new")
           extranonce2 ntime nonce w); reflexivity.
Defined.

(** [alice] re-subscribes on a session that had been retargeted to 16 and
    submits. *)
Lemma subscribe_then_submit_witness :
  let I := pool password_db in
  let w := world_of alice_session in
  let w1 := snd (subscribe I [] w) in
  (worker_manager_authorize I alice (stored_credential (session w) alice) = true
   /\ get_new_extranonce1 I (allocated w) <> "")
  /\ exists tail,
       calls (snd (submit I alice (PyStr "job_new") extranonce2 ntime nonce w1)) =
         calls w ++ [GetNewExtranonce1; PubsubSubscribe] ++
         calls_up_to_validation I (session w1) alice (PyStr "job_new") extranonce2 ntime
           nonce (PyStr (get_new_extranonce1 I (allocated w))) (POOL_TARGET I) ++ tail.
Proof.
  intros I w w1.
  assert (Hne : get_new_extranonce1 I (allocated w) <> "") by discriminate.
  split; [split; [reflexivity|exact Hne]|].
  apply (subscribe_then_submit I [] alice (PyStr "job_new") extranonce2 ntime nonce w);
    [reflexivity|exact Hne].
Defined.

(** Subscribe, authorize, submit an unknown job. *)
Lemma connection_subscribed_has_difficulty_witness :
  let I := pool password_db in
  let rqs := [CallSubscribe []; CallAuthorize alice (PyStr "hunter2"); alice_submits "job_x"] in
  let s := session (serve_all I rqs (fresh_connection 0 [])) in
  is_Some (extranonce1 s) /\ is_Some (difficulty s).
Proof.
  intros I rqs s.
  assert (He1 : is_Some (extranonce1 s)) by (eexists; reflexivity).
  split; [exact He1|].
  apply (connection_subscribed_has_difficulty I rqs 0 []). exact He1.
Defined.

Lemma connection_credentials_accepted_witness :
  let I := pool password_db in
  let rqs := [CallAuthorize bob (PyStr "guess"); CallAuthorize alice (PyStr "hunter2");
              CallSubscribe []] in
  let s := session (serve_all I rqs (fresh_connection 0 [])) in
  default ∅ (authorized s) !! alice = Some (PyStr "hunter2")
  /\ worker_manager_authorize I alice (PyStr "hunter2") = true
  /\ worker_manager_authorize I alice (stored_credential s alice) = true.
Proof.
  intros I rqs s.
  assert (Hlook : default ∅ (authorized s) !! alice = Some (PyStr "hunter2"))
    by reflexivity.
  split; [exact Hlook|].
  apply (connection_credentials_accepted I rqs 0 [] alice (PyStr "hunter2")). exact Hlook.
Defined.

(** Authorize and submit, never subscribe. *)
Lemma connection_without_subscribe_witness :
  let I := pool password_db in
  let rqs := [CallAuthorize alice (PyStr "hunter2"); alice_submits "job_new";
              CallUpdateBlock] in
  let w := serve_all I rqs (fresh_connection 0 []) in
  (subscribes rqs = 0
   /\ worker_manager_authorize I alice (stored_credential (session w) alice) = true)
  /\ fst (submit I alice (PyStr "job_new") extranonce2 ntime nonce w) =
       Raise (SubmitException "Connection is not subscribed for mining").
Proof.
  intros I rqs w. split; [split; reflexivity|].
  apply (connection_without_subscribe I rqs 0 [] alice (PyStr "job_new") extranonce2 ntime
           nonce); reflexivity.
Defined.

(** Two connections of the pool, the second opened after the first was
    given its extranonce1. *)
Lemma subscribe_distinct_hex_witness :
  let I := pool password_db in
  let w1 := fresh_connection 0 [] in
  let w2 := fresh_connection 1 [] in
  let details := [Tuple [PyStr "mining.notify"; PyStr "ae6812eb4cd7735a"]] in
  (pubsub_subscribe I (calls w1 ++ [GetNewExtranonce1]) = Return details
   /\ pubsub_subscribe I (calls w2 ++ [GetNewExtranonce1]) = Return details
   /\ get_new_extranonce1 I (allocated w1) <> get_new_extranonce1 I (allocated w2))
  /\ exists hex1 hex2,
       fst (subscribe I [] w1) =
         Return (details ++ [Plain (PyStr hex1); Plain (extranonce2_size I)])
       /\ fst (subscribe I [] w2) =
            Return (details ++ [Plain (PyStr hex2); Plain (extranonce2_size I)])
       /\ hex1 <> hex2
       /\ read_hex hex1 = get_new_extranonce1 I (allocated w1)
       /\ read_hex hex2 = get_new_extranonce1 I (allocated w2).
Proof.
  intros I w1 w2 details.
  assert (Hne : get_new_extranonce1 I (allocated w1) <> get_new_extranonce1 I (allocated w2))
    by discriminate.
  split; [split; [reflexivity|split; [reflexivity|exact Hne]]|].
  apply (subscribe_distinct_hex I [] [] w1 w2 details details);
    [reflexivity|reflexivity|exact Hne].
Defined.

(** C7, as stated, fails. On a connection of the pool, the first
    [subscribe] is answered with the details, [aa11bb22] and 4.  The second
    one asks the allocator again and stores [aa 11 bb 23] in the session,
    and then [Pubsub.subscribe] refuses the connection, which is already
    subscribed: the call raises and returns no subscription details. *)
Lemma resubscribe_refused_after_allocation :
  let I := pool password_db in
  let first := subscribe I [] (fresh_connection 0 []) in
  let second := subscribe I [] (snd first) in
  fst first =
    Return [Tuple [PyStr "mining.notify"; PyStr "ae6812eb4cd7735a"];
            Plain (PyStr "aa11bb22"); Plain (PyInt 4)]
  /\ fst second = Raise (OtherError "AlreadySubscribedException")
  /\ (forall answer, fst second <> Return answer)
  /\ calls (snd second) =
       [GetNewExtranonce1; PubsubSubscribe; GetNewExtranonce1; PubsubSubscribe]
  /\ allocated (snd second) = 2
  /\ extranonce1 (session (snd second)) = Some (PyStr (allocator 1)).
Proof. vm_compute. repeat split. intros answer. discriminate. Qed.

(** The first and the second [subscribe] of a connection of the pool. *)
Lemma subscribe_allocates_each_call_witness :
  let I := pool password_db in
  let w := fresh_connection 0 [] in
  let w1 := snd (subscribe I [] w) in
  let details := [Tuple [PyStr "mining.notify"; PyStr "ae6812eb4cd7735a"]] in
  (pubsub_subscribe I (calls w ++ [GetNewExtranonce1]) = Return details
   /\ pubsub_subscribe I (calls w1 ++ [GetNewExtranonce1]) =
        Raise (OtherError "AlreadySubscribedException"))
  /\ fst (subscribe I [] w) =
       Return (details ++ [Plain (PyStr (hexlify (get_new_extranonce1 I (allocated w))));
                           Plain (extranonce2_size I)])
  /\ fst (subscribe I [] w1) = Raise (OtherError "AlreadySubscribedException")
  /\ allocated (snd (subscribe I [] w1)) = 2.
Proof.
  intros I w w1 details.
  pose proof (subscribe_allocates_each_call I [] [] w) as H. cbv zeta in H.
  destruct H as (_ & _ & _ & _ & _ & Hret & _ & _ & _ & _ & _ & Halloc & _ & _ & _ & Hraise).
  split; [split; reflexivity|].
  split; [apply Hret; reflexivity|].
  split; [apply Hraise; reflexivity|].
  exact Halloc.
Defined.

End MoreInstances.
